(** * SecureVault client: lifecycle of the session, the unlock key and revealed secrets

    A shallow embedding of the lifecycle core of the client:
    - [src/utils/storage.ts]            the TTL cache over AsyncStorage,
    - [src/hooks/use-encryption-key.ts] the cached unlock key,
    - [src/services/api.ts]             the response interceptor and its handler,
    - the AuthProvider                  hydration, login, sign-out, refresh,
    - [src/app/(tabs)/passwords.tsx]    reveal with an auto-hide timer,
    - the notes screen                  decrypting a note.

    Asynchronous functions are written as state transformers: every [await]
    of the source is a sequencing point and the single-threaded event loop
    runs the code between two of them atomically.  [Date.now()] is an
    explicit argument, a number of milliseconds.  Toasts, the loading
    overlay and console output are not part of the state. *)

From Stdlib Require Import ZArith Lia Ascii String.
From Stdlib Require Import DecimalString DecimalFacts DecimalPos DecimalZ.
From stdpp Require Import gmap strings list fin_maps.

Local Open Scope Z_scope.

(** ** JavaScript values the code inspects *)

Module Js.

(** [response?.status] of an error object: an AxiosError may carry a
    response, any other thrown value has none. *)
Record AxiosResponse := { status : Z }.
Record AxiosError := { response : option AxiosResponse; message : string }.

Inductive Error :=
| Axios (e : AxiosError)
| Exception (name : string).

(** A call that either returns or throws. *)
Inductive Result (A : Type) :=
| Ret (a : A)
| Throw (e : Error).
Arguments Ret {A} a.
Arguments Throw {A} e.

(** Truthiness of [string | null] and of [number | undefined]. *)
Definition truthy_string (s : option string) : bool :=
  match s with
  | Some s => negb (String.eqb s "")
  | None => false
  end.

Definition truthy_number (n : option Z) : bool :=
  match n with
  | Some n => negb (n =? 0)
  | None => false
  end.

(** [error.response?.status === 401] *)
Definition status_is (code : Z) (e : Error) : bool :=
  match e with
  | Axios {| response := Some r |} => status r =? code
  | _ => false
  end.

(** [JSON.stringify] and [JSON.parse] at a declared TypeScript type.
    [JSON_parse] throws on malformed text; [Ret None] is the value [null]. *)
Class Json (A : Type) := {
  JSON_stringify : A -> string;
  JSON_parse : string -> Result (option A);
}.

(** The [base-64] package behind [utils/crypto]. *)
Class Base64 := {
  toBase64 : string -> string;
  fromBase64 : string -> Result string;
}.

End Js.
Import Js.

(** ** AsyncStorage *)

Module AsyncStorage.

Abbreviation Store := (gmap string string).

Definition getItem (key : string) (st : Store) : option string := st !! key.
Definition setItem (key value : string) (st : Store) : Store := <[key := value]> st.
Definition removeItem (key : string) (st : Store) : Store := delete key st.

Definition multiGet (keys : list string) (st : Store) : list (string * option string) :=
  map (fun k => (k, st !! k)) keys.
Definition multiSet (kvs : list (string * string)) (st : Store) : Store :=
  fold_left (fun acc kv => <[kv.1 := kv.2]> acc) kvs st.
Definition multiRemove (keys : list string) (st : Store) : Store :=
  fold_left (fun acc k => delete k acc) keys st.

End AsyncStorage.

(** ** utils/storage.ts *)

Module Storage.
Import AsyncStorage.

(** [StoredValue<T>]: a missing or [null] [value] reads as [None]
    ([parsed.value ?? null]); [expiresAt] is optional. *)
Record StoredValue (T : Type) := {
  value : option T;
  expiresAt : option Z;
}.
Arguments value {T} _.
Arguments expiresAt {T} _.
Arguments Build_StoredValue {T} _ _.

(** [parsed.expiresAt && parsed.expiresAt < Date.now()] *)
Definition expired (e : option Z) (now : Z) : bool :=
  match e with
  | Some e => negb (e =? 0) && (e <? now)
  | None => false
  end.

Section WithCodec.
Context {T : Type} `{!Json (StoredValue T)}.

Definition setItemWithTTL (key : string) (v : T) (ttlMs : option Z)
    (now : Z) (st : Store) : Store :=
  let payload :=
    {| value := Some v;
       expiresAt := match ttlMs with
                    | Some ttl => if ttl =? 0 then None else Some (now + ttl)
                    | None => None
                    end |} in
  setItem key (JSON_stringify payload) st.

Definition getItemWithTTL (key : string) (now : Z) (st : Store)
    : option T * Store :=
  match getItem key st with
  | None => (None, st)
  | Some raw =>
      if String.eqb raw "" then (None, st)
      else
        match JSON_parse raw with
        | Ret (Some parsed) =>
            if expired (expiresAt parsed) now
            then (None, AsyncStorage.removeItem key st)
            else (value parsed, st)
        | Ret None      (* a property read on null throws: the catch block *)
        | Throw _ => (None, AsyncStorage.removeItem key st)
        end
  end.

End WithCodec.

Definition removeItem (key : string) (st : Store) : Store :=
  AsyncStorage.removeItem key st.

End Storage.

(** ** utils/crypto *)

Module Crypto.
Section WithBase64.
Context `{!Base64}.

Definition encodeKey (v : string) : string := toBase64 v.
Definition decodeKey (v : string) : Result string := fromBase64 v.

End WithBase64.
End Crypto.

(** ** hooks/use-encryption-key.ts *)

Module EncryptionKey.
Import AsyncStorage Storage Crypto.

Definition STORAGE_KEY : string := "securevault:ekey".
Definition TTL_MS : Z := 5 * 60 * 1000.

(** The hook's React state: the mirror [rawKey] and [isHydrated]. *)
Record State := {
  rawKey : option string;
  isHydrated : bool;
}.

Definition initial : State := {| rawKey := None; isHydrated := false |}.

Section WithPlatform.
Context `{!Json (StoredValue string)} `{!Base64}.

(** The mount effect. *)
Definition hydrate (now : Z) (k : State) (st : Store) : State * Store :=
  let '(stored, st') := getItemWithTTL STORAGE_KEY now st in
  ({| rawKey := stored; isHydrated := true |}, st').

Definition setKey (v : string) (persist : bool) (now : Z)
    (k : State) (st : Store) : State * Store :=
  let encoded := encodeKey v in
  let k' := {| rawKey := Some encoded; isHydrated := isHydrated k |} in
  if persist
  then (k', setItemWithTTL STORAGE_KEY encoded (Some TTL_MS) now st)
  else (k', st).

Definition clearKey (k : State) (st : Store) : State * Store :=
  ({| rawKey := None; isHydrated := isHydrated k |},
   Storage.removeItem STORAGE_KEY st).

(** What the hook returns on a render: [encodedKey] and [key]. *)
Definition encodedKey (k : State) : option string := rawKey k.

Definition decodedKey (k : State) : Result (option string) :=
  match rawKey k with
  | Some raw =>
      if String.eqb raw "" then Ret None
      else match decodeKey raw with
           | Ret d => Ret (Some d)
           | Throw e => Throw e
           end
  | None => Ret None
  end.

End WithPlatform.
End EncryptionKey.

(** ** services/api.ts *)

Module Api.

Record Request := { method : string; url : string }.

(** The axios instance: its default [Authorization] header and, as a
    record of what went out, the requests issued so far. *)
Record Client := {
  authorization : option string;
  sent : list Request;
}.

Definition setAuthToken (token : option string) (c : Client) : Client :=
  match token with
  | Some t =>
      if String.eqb t ""
      then {| authorization := None; sent := sent c |}
      else {| authorization := Some ("Bearer " +:+ t); sent := sent c |}
  | None => {| authorization := None; sent := sent c |}
  end.

Definition issue (r : Request) (c : Client) : Client :=
  {| authorization := authorization c; sent := sent c ++ [r] |}.

(** What the backend answers to one request. *)
Inductive Reply (D : Type) :=
| Fulfilled (data : D)
| Rejected (error : AxiosError).
Arguments Fulfilled {D} data.
Arguments Rejected {D} error.

Section Interceptor.
Context {S : Type}.

(** A handler [() => void] acting on the state [S]: the state it leaves
    and the value it threw, if it threw. *)
Definition Handler := S -> S * option Error.

(** The module variable [unauthorizedHandler]. *)
Record Registry := { unauthorizedHandler : option Handler }.

Definition unregistered : Registry := {| unauthorizedHandler := None |}.

Definition onUnauthorized (h : Handler) (_ : Registry) : Registry :=
  {| unauthorizedHandler := Some h |}.

(** The rejection branch of [api.interceptors.response.use]: the state
    after it and the error the request promise rejects with. *)
Definition responseError (m : Registry) (error : AxiosError) (s : S)
    : S * Error :=
  if status_is 401 (Axios error) then
    match unauthorizedHandler m with
    | Some h =>
        match h s with
        | (s', None) => (s', Axios error)
        | (s', Some thrown) => (s', thrown)
        end
    | None => (s, Axios error)
    end
  else (s, Axios error).

End Interceptor.
Arguments Handler S : clear implicits.
Arguments Registry S : clear implicits.

End Api.

(** ** setTimeout / clearTimeout *)

Module Timers.

(** A scheduled callback of the passwords screen: it forgets the
    revealed password of [target] once [due] is reached. *)
Record Timer := { target : string; due : Z }.

Record Runtime := {
  pending : gmap positive Timer;
  next : positive;
}.

Definition initial : Runtime := {| pending := ∅; next := 1%positive |}.

Definition setTimeout (id : string) (delay now : Z) (rt : Runtime)
    : positive * Runtime :=
  (next rt,
   {| pending := <[next rt := {| target := id; due := now + delay |}]> (pending rt);
      next := (next rt + 1)%positive |}).

Definition clearTimeout (h : positive) (rt : Runtime) : Runtime :=
  {| pending := delete h (pending rt); next := next rt |}.

End Timers.

(** ** React state of the provider and of the two screens *)

Module AuthContext.

Record AuthUser := {
  id : string;
  name : string;
  email : string;
  avatarUrl : option string;
  dateOfBirth : option string;
  secretAnswer : option string;
}.

Record AuthSessionPayload := {
  payload_token : string;
  payload_user : AuthUser;
  payload_encryptionKeyConfigured : option bool;
}.

Record State := {
  token : option string;
  user : option AuthUser;
  isHydrated : bool;
  encryptionKeyConfigured : bool;
}.

Definition initial : State :=
  {| token := None; user := None; isHydrated := false;
     encryptionKeyConfigured := false |}.

Definition isAuthenticated (a : State) : bool := truthy_string (token a).

Definition setToken (t : option string) (a : State) : State :=
  {| token := t; user := user a; isHydrated := isHydrated a;
     encryptionKeyConfigured := encryptionKeyConfigured a |}.
Definition setUser (u : option AuthUser) (a : State) : State :=
  {| token := token a; user := u; isHydrated := isHydrated a;
     encryptionKeyConfigured := encryptionKeyConfigured a |}.
Definition setIsHydrated (b : bool) (a : State) : State :=
  {| token := token a; user := user a; isHydrated := b;
     encryptionKeyConfigured := encryptionKeyConfigured a |}.
Definition setKeyConfigured (b : bool) (a : State) : State :=
  {| token := token a; user := user a; isHydrated := isHydrated a;
     encryptionKeyConfigured := b |}.

End AuthContext.

Module PasswordsState.

Record State := {
  key : EncryptionKey.State;
  promptKey : bool;
  revealedPasswords : gmap string string;
  hideTimers : gmap string positive;
}.

Definition initial : State :=
  {| key := EncryptionKey.initial; promptKey := false;
     revealedPasswords := ∅; hideTimers := ∅ |}.

Definition setKeyState (k : EncryptionKey.State) (p : State) : State :=
  {| key := k; promptKey := promptKey p;
     revealedPasswords := revealedPasswords p; hideTimers := hideTimers p |}.
Definition setPromptKey (b : bool) (p : State) : State :=
  {| key := key p; promptKey := b;
     revealedPasswords := revealedPasswords p; hideTimers := hideTimers p |}.
Definition setRevealedPasswords
    (f : gmap string string -> gmap string string) (p : State) : State :=
  {| key := key p; promptKey := promptKey p;
     revealedPasswords := f (revealedPasswords p); hideTimers := hideTimers p |}.
Definition setHideTimers
    (f : gmap string positive -> gmap string positive) (p : State) : State :=
  {| key := key p; promptKey := promptKey p;
     revealedPasswords := revealedPasswords p; hideTimers := f (hideTimers p) |}.

End PasswordsState.

Module NotesState.

Record State := {
  key : EncryptionKey.State;
  promptKey : bool;
  activeContent : gmap string string;
}.

Definition initial : State :=
  {| key := EncryptionKey.initial; promptKey := false; activeContent := ∅ |}.

Definition setKeyState (k : EncryptionKey.State) (n : State) : State :=
  {| key := k; promptKey := promptKey n; activeContent := activeContent n |}.
Definition setPromptKey (b : bool) (n : State) : State :=
  {| key := key n; promptKey := b; activeContent := activeContent n |}.
Definition setActiveContent
    (f : gmap string string -> gmap string string) (n : State) : State :=
  {| key := key n; promptKey := promptKey n; activeContent := f (activeContent n) |}.

End NotesState.

(** ** The whole client *)

Module App.
Import AsyncStorage.

Record World := {
  storage : Store;
  client : Api.Client;
  timers : Timers.Runtime;
  auth : AuthContext.State;
  passwords : PasswordsState.State;
  notes : NotesState.State;
}.

Definition initial : World :=
  {| storage := ∅;
     client := {| Api.authorization := None; Api.sent := [] |};
     timers := Timers.initial;
     auth := AuthContext.initial;
     passwords := PasswordsState.initial;
     notes := NotesState.initial |}.

Definition with_storage (f : Store -> Store) (w : World) : World :=
  {| storage := f (storage w); client := client w; timers := timers w;
     auth := auth w; passwords := passwords w; notes := notes w |}.
Definition with_client (f : Api.Client -> Api.Client) (w : World) : World :=
  {| storage := storage w; client := f (client w); timers := timers w;
     auth := auth w; passwords := passwords w; notes := notes w |}.
Definition with_timers (f : Timers.Runtime -> Timers.Runtime) (w : World) : World :=
  {| storage := storage w; client := client w; timers := f (timers w);
     auth := auth w; passwords := passwords w; notes := notes w |}.
Definition with_auth (f : AuthContext.State -> AuthContext.State) (w : World) : World :=
  {| storage := storage w; client := client w; timers := timers w;
     auth := f (auth w); passwords := passwords w; notes := notes w |}.
Definition with_passwords (f : PasswordsState.State -> PasswordsState.State)
    (w : World) : World :=
  {| storage := storage w; client := client w; timers := timers w;
     auth := auth w; passwords := f (passwords w); notes := notes w |}.
Definition with_notes (f : NotesState.State -> NotesState.State) (w : World) : World :=
  {| storage := storage w; client := client w; timers := timers w;
     auth := auth w; passwords := passwords w; notes := f (notes w) |}.

(** One request through the axios instance: it is issued, and a
    rejection passes through the response interceptor before the
    caller sees it. *)
Definition request {D : Type} (m : Api.Registry World) (r : Api.Request)
    (reply : Api.Reply D) (w : World) : World * Result D :=
  let w1 := with_client (Api.issue r) w in
  match reply with
  | Api.Fulfilled d => (w1, Ret d)
  | Api.Rejected e =>
      let '(w2, err) := Api.responseError m e w1 in (w2, Throw err)
  end.

End App.

(** ** The AuthProvider *)

Module AuthProvider.
Import AsyncStorage AuthContext App.

Definition AUTH_TOKEN_KEY : string := "securevault:token".
Definition AUTH_USER_KEY : string := "securevault:user".
Definition AUTH_KEY_FLAG : string := "securevault:key-configured".

Section WithJson.
Context `{!Json AuthUser}.

(** The mount effect.  The storage calls of the model do not fail, so
    the outer [catch] has nothing to catch; [finally] sets the flag. *)
Definition hydrate (w : World) : World :=
  let w' :=
    match multiGet [AUTH_TOKEN_KEY; AUTH_USER_KEY; AUTH_KEY_FLAG] (storage w) with
    | [storedToken; storedUser; keyFlag] =>
        let nextToken := storedToken.2 in
        let userJson := storedUser.2 in
        let keyConfiguredValue := keyFlag.2 in
        let w1 :=
          if truthy_string nextToken
          then with_client (Api.setAuthToken nextToken)
                 (with_auth (setToken nextToken) w)
          else w in
        let w2 :=
          match userJson with
          | Some json =>
              if String.eqb json "" then w1
              else match JSON_parse json with
                   | Ret u => with_auth (setUser u) w1
                   | Throw _ => with_storage (removeItem AUTH_USER_KEY) w1
                   end
          | None => w1
          end in
        match keyConfiguredValue with
        | Some v =>
            if String.eqb v "" then w2
            else with_auth (setKeyConfigured (String.eqb v "true")) w2
        | None => w2
        end
    | _ => w
    end in
  with_auth (setIsHydrated true) w'.

Definition completeLogin (p : AuthSessionPayload) (w : World) : World :=
  let nextToken := payload_token p in
  let nextUser := payload_user p in
  let keyConfigured := default false (payload_encryptionKeyConfigured p) in
  let w1 := with_auth (setToken (Some nextToken)) w in
  let w2 := with_auth (setUser (Some nextUser)) w1 in
  let w3 := with_auth (setKeyConfigured keyConfigured) w2 in
  let w4 := with_client (Api.setAuthToken (Some nextToken)) w3 in
  with_storage
    (multiSet [(AUTH_TOKEN_KEY, nextToken);
               (AUTH_USER_KEY, JSON_stringify nextUser);
               (AUTH_KEY_FLAG, if keyConfigured then "true" else "false")])
    w4.

Definition signOut (w : World) : World :=
  let w1 := with_auth (setToken None) w in
  let w2 := with_auth (setUser None) w1 in
  let w3 := with_auth (setKeyConfigured false) w2 in
  let w4 := with_client (Api.setAuthToken None) w3 in
  with_storage (multiRemove [AUTH_TOKEN_KEY; AUTH_USER_KEY; AUTH_KEY_FLAG]) w4.

(** The handler the provider registers: an async function, so calling
    it never throws into the interceptor. *)
Definition clearSession : Api.Handler World := fun w => (signOut w, None).

Definition registered : Api.Registry World :=
  Api.onUnauthorized clearSession Api.unregistered.

Definition refreshUser (m : Api.Registry World) (reply : Api.Reply AuthUser)
    (w : World) : World * Result unit :=
  if negb (truthy_string (token (auth w))) then (w, Ret tt)
  else
    match request m {| Api.method := "GET"; Api.url := "/user/fetch" |} reply w with
    | (w1, Ret data) =>
        let w2 := with_auth (setUser (Some data)) w1 in
        (with_storage (setItem AUTH_USER_KEY (JSON_stringify data)) w2, Ret tt)
    | (w1, Throw e) => (w1, Throw e)
    end.

Definition setEncryptionKeyConfigured (v : bool) (w : World) : World :=
  let w1 := with_auth (setKeyConfigured v) w in
  with_storage (setItem AUTH_KEY_FLAG (if v then "true" else "false")) w1.

End WithJson.
End AuthProvider.

(** ** app/(tabs)/passwords.tsx *)

Module PasswordsScreen.
Import AsyncStorage Storage Crypto PasswordsState App.

Definition HIDE_DELAY : Z := 5000.

(** [{ password: string } | string] *)
Inductive RevealData :=
| Text (s : string)
| WithPassword (password : string).

Section WithPlatform.
Context `{!Json (StoredValue string)} `{!Base64}.

(** The screen's instance of the hook, on the shared storage. *)
Definition hydrateKey (now : Z) (w : World) : World :=
  let '(k, st) := EncryptionKey.hydrate now (key (passwords w)) (storage w) in
  with_storage (fun _ => st) (with_passwords (setKeyState k) w).

Definition setKey (v : string) (persist : bool) (now : Z) (w : World) : World :=
  let '(k, st) :=
    EncryptionKey.setKey v persist now (key (passwords w)) (storage w) in
  with_storage (fun _ => st) (with_passwords (setKeyState k) w).

Definition clearKey (w : World) : World :=
  let '(k, st) := EncryptionKey.clearKey (key (passwords w)) (storage w) in
  with_storage (fun _ => st) (with_passwords (setKeyState k) w).

(** The part of [handleReveal] after a successful decrypt. *)
Definition reveal (id secret : string) (now : Z) (w : World) : World :=
  let w1 := with_passwords (setRevealedPasswords (insert id secret)) w in
  let w2 :=
    match hideTimers (passwords w1) !! id with
    | Some h => with_timers (Timers.clearTimeout h) w1
    | None => w1
    end in
  let '(h, rt) := Timers.setTimeout id HIDE_DELAY now (timers w2) in
  with_passwords (setHideTimers (insert id h)) (with_timers (fun _ => rt) w2).

(** The runtime runs a pending callback: the revealed password of its
    record is forgotten. *)
Definition fire (h : positive) (w : World) : World :=
  match Timers.pending (timers w) !! h with
  | Some t =>
      with_passwords (setRevealedPasswords (delete (Timers.target t)))
        (with_timers (Timers.clearTimeout h) w)
  | None => w
  end.

(** The [catch] block of [handleReveal]. *)
Definition revealFailed (e : Error) (w : World) : World :=
  if status_is 401 e then clearKey w else w.

Definition handleReveal (m : Api.Registry World) (id : string)
    (reply : Api.Reply RevealData) (now : Z) (w : World) : World :=
  if negb (truthy_string (EncryptionKey.encodedKey (key (passwords w))))
  then with_passwords (setPromptKey true) w
  else
    let r := {| Api.method := "POST"; Api.url := "/vault/" +:+ id |} in
    match request m r reply w with
    | (w1, Ret data) =>
        let decoded :=
          match data with
          | Text s => decodeKey s
          | WithPassword p => decodeKey p
          end in
        match decoded with
        | Ret secret => reveal id secret now w1
        | Throw e => revealFailed e w1
        end
    | (w1, Throw e) => revealFailed e w1
    end.

End WithPlatform.
End PasswordsScreen.

(** ** The notes screen *)

Module NotesScreen.
Import AsyncStorage Storage Crypto NotesState App.

(** [{ content: string } | string] *)
Inductive NoteData :=
| Text (s : string)
| WithContent (content : string).

Section WithPlatform.
Context `{!Json (StoredValue string)} `{!Base64}.

Definition hydrateKey (now : Z) (w : World) : World :=
  let '(k, st) := EncryptionKey.hydrate now (key (notes w)) (storage w) in
  with_storage (fun _ => st) (with_notes (setKeyState k) w).

Definition setKey (v : string) (persist : bool) (now : Z) (w : World) : World :=
  let '(k, st) :=
    EncryptionKey.setKey v persist now (key (notes w)) (storage w) in
  with_storage (fun _ => st) (with_notes (setKeyState k) w).

(** The [catch] block only reports the failure. *)
Definition decryptNote (m : Api.Registry World) (noteId : string)
    (reply : Api.Reply NoteData) (w : World) : World :=
  if negb (truthy_string (EncryptionKey.encodedKey (key (notes w))))
  then with_notes (setPromptKey true) w
  else
    let r := {| Api.method := "POST"; Api.url := "/journal/" +:+ noteId |} in
    match request m r reply w with
    | (w1, Ret data) =>
        let decoded :=
          match data with
          | Text s => decodeKey s
          | WithContent c => Ret c
          end in
        match decoded with
        | Ret decrypted =>
            with_notes (setActiveContent (insert noteId decrypted)) w1
        | Throw _ => w1
        end
    | (w1, Throw _) => w1
    end.

End WithPlatform.
End NotesScreen.

(** ** A reference platform

    The theorems below hold for every [Json] and [Base64] instance.  The
    closed examples run on this one: JSON text with integer numbers
    (timestamps are whole milliseconds) and the base-64 alphabet of
    RFC 4648. *)

Module Reference.
Import Storage AuthContext.
Local Open Scope string_scope.

#[local] Set Warnings "-register-all".

Inductive json :=
| JNull
| JBool (b : bool)
| JNum (n : Z)
| JStr (s : string)
| JArr (items : list json)
| JObj (members : list (string * json)).

Definition dquote : ascii := "034"%char.
Definition backslash : ascii := "092"%char.

Definition is_ws (c : ascii) : bool :=
  (c =? " ")%char || (c =? "009")%char || (c =? "010")%char || (c =? "013")%char.

(** Code below 32: the three high bits are clear. *)
Definition is_control (c : ascii) : bool :=
  match c with
  | Ascii _ _ _ _ _ b5 b6 b7 => negb (b5 || b6 || b7)
  end.

Definition is_digit (c : ascii) : bool :=
  (48 <=? nat_of_ascii c)%nat && (nat_of_ascii c <=? 57)%nat.

Definition hex_value (c : ascii) : option N :=
  let n := N_of_ascii c in
  if (48 <=? n)%N && (n <=? 57)%N then Some (n - 48)%N
  else if (97 <=? n)%N && (n <=? 102)%N then Some (n - 87)%N
  else if (65 <=? n)%N && (n <=? 70)%N then Some (n - 55)%N
  else None.

Definition hex_digit (n : N) : ascii :=
  default "0"%char (String.get (N.to_nat n) "0123456789abcdef").

(** *** JSON.stringify *)

Definition escape (c : ascii) : string :=
  if (c =? dquote)%char then String backslash (String dquote "")
  else if (c =? backslash)%char then String backslash (String backslash "")
  else if (c =? "010")%char then String backslash "n"
  else if (c =? "013")%char then String backslash "r"
  else if (c =? "009")%char then String backslash "t"
  else if (c =? "008")%char then String backslash "b"
  else if (c =? "012")%char then String backslash "f"
  else if is_control c
  then String backslash
         (String "u" (String "0" (String "0"
           (String (hex_digit (N_of_ascii c / 16))
             (String (hex_digit (N_of_ascii c mod 16)) "")))))
  else String c "".

Fixpoint escape_all (s : string) : string :=
  match s with
  | EmptyString => ""
  | String c r => escape c +:+ escape_all r
  end.

Definition quoted (s : string) : string :=
  String dquote (escape_all s +:+ String dquote "").

Fixpoint commas (l : list string) : string :=
  match l with
  | [] => ""
  | [x] => x
  | x :: r => x +:+ "," +:+ commas r
  end.

Fixpoint print (j : json) : string :=
  match j with
  | JNull => "null"
  | JBool true => "true"
  | JBool false => "false"
  | JNum n => DecimalString.NilZero.string_of_int (Z.to_int n)
  | JStr s => quoted s
  | JArr items => "[" +:+ commas (map print items) +:+ "]"
  | JObj members =>
      "{" +:+ commas (map (fun kv => quoted (fst kv) +:+ ":" +:+ print (snd kv)) members)
          +:+ "}"
  end.

(** *** JSON.parse *)

Fixpoint skip_ws (s : string) : string :=
  match s with
  | String c r => if is_ws c then skip_ws r else s
  | EmptyString => s
  end.

Definition unescape (c : ascii) : option ascii :=
  if (c =? dquote)%char then Some dquote
  else if (c =? backslash)%char then Some backslash
  else if (c =? "/")%char then Some "/"%char
  else if (c =? "n")%char then Some "010"%char
  else if (c =? "r")%char then Some "013"%char
  else if (c =? "t")%char then Some "009"%char
  else if (c =? "b")%char then Some "008"%char
  else if (c =? "f")%char then Some "012"%char
  else None.

Definition hex4 (a b c d : ascii) : option ascii :=
  x1 ← hex_value a; x2 ← hex_value b; x3 ← hex_value c; x4 ← hex_value d;
  let n := (((x1 * 16 + x2) * 16 + x3) * 16 + x4)%N in
  if (n <? 256)%N then Some (ascii_of_N n) else None.

(** The characters of a string literal, after its opening quote. *)
Fixpoint parse_chars (s : string) : option (string * string) :=
  match s with
  | EmptyString => None
  | String c r =>
      if (c =? dquote)%char then Some ("", r)
      else if (c =? backslash)%char then
        match r with
        | String e r1 =>
            if (e =? "u")%char then
              match r1 with
              | String h1 (String h2 (String h3 (String h4 r2))) =>
                  ch ← hex4 h1 h2 h3 h4;
                  '(t, rest) ← parse_chars r2;
                  Some (String ch t, rest)
              | _ => None
              end
            else
              ch ← unescape e;
              '(t, rest) ← parse_chars r1;
              Some (String ch t, rest)
        | EmptyString => None
        end
      else if is_control c then None
      else '(t, rest) ← parse_chars r; Some (String c t, rest)
  end.

Fixpoint span_digits (s : string) : string * string :=
  match s with
  | String c r =>
      if is_digit c
      then let '(d, t) := span_digits r in (String c d, t)
      else ("", s)
  | EmptyString => ("", "")
  end.

Definition starts_fraction (s : string) : bool :=
  match s with
  | String c _ => (c =? ".")%char || (c =? "e")%char || (c =? "E")%char
  | EmptyString => false
  end.

(** What may follow the digits of a number. *)
Definition stops_number (rest : string) : Prop :=
  match rest with
  | String c _ => is_digit c = false /\ starts_fraction rest = false
  | EmptyString => True
  end.

Definition parse_number (s : string) : option (json * string) :=
  let '(negative, s1) :=
    match s with
    | String c r => if (c =? "-")%char then (true, r) else (false, s)
    | EmptyString => (false, s)
    end in
  let '(ds, rest) := span_digits s1 in
  match ds with
  | EmptyString => None
  | String d t =>
      if (d =? "0")%char && negb (String.eqb t "") then None
      else if starts_fraction rest then None
      else
        n ← DecimalString.NilZero.int_of_string ds;
        Some (JNum (if negative then - Z.of_int n else Z.of_int n), rest)
  end.

Definition expect (lit : string) (v : json) (s : string) : option (json * string) :=
  if String.prefix lit s
  then Some (v, String.substring (String.length lit)
                  (String.length s - String.length lit) s)
  else None.

(** A later member replaces an earlier one of the same name. *)
Fixpoint obj_set (k : string) (v : json) (m : list (string * json))
    : list (string * json) :=
  match m with
  | [] => [(k, v)]
  | (k', v') :: r => if String.eqb k k' then (k, v) :: r else (k', v') :: obj_set k v r
  end.

Fixpoint parse_value (fuel : nat) (s : string) {struct fuel}
    : option (json * string) :=
  match fuel with
  | O => None
  | S f =>
      match skip_ws s with
      | EmptyString => None
      | String c r =>
          if (c =? "n")%char then expect "null" JNull (String c r)
          else if (c =? "t")%char then expect "true" (JBool true) (String c r)
          else if (c =? "f")%char then expect "false" (JBool false) (String c r)
          else if (c =? dquote)%char then
            '(str, rest) ← parse_chars r; Some (JStr str, rest)
          else if (c =? "[")%char then
            match skip_ws r with
            | String c1 r1 =>
                if (c1 =? "]")%char then Some (JArr [], r1)
                else '(items, rest) ← parse_items f r; Some (JArr items, rest)
            | EmptyString => None
            end
          else if (c =? "{")%char then
            match skip_ws r with
            | String c1 r1 =>
                if (c1 =? "}")%char then Some (JObj [], r1)
                else '(ms, rest) ← parse_members f [] r; Some (JObj ms, rest)
            | EmptyString => None
            end
          else parse_number (String c r)
      end
  end
with parse_items (fuel : nat) (s : string) {struct fuel}
    : option (list json * string) :=
  match fuel with
  | O => None
  | S f =>
      '(v, r) ← parse_value f s;
      match skip_ws r with
      | String c r1 =>
          if (c =? ",")%char then
            '(vs, rest) ← parse_items f r1; Some (v :: vs, rest)
          else if (c =? "]")%char then Some ([v], r1)
          else None
      | EmptyString => None
      end
  end
with parse_members (fuel : nat) (acc : list (string * json)) (s : string)
    {struct fuel} : option (list (string * json) * string) :=
  match fuel with
  | O => None
  | S f =>
      match skip_ws s with
      | String q r =>
          if (q =? dquote)%char then
            '(k, r1) ← parse_chars r;
            match skip_ws r1 with
            | String colon r2 =>
                if (colon =? ":")%char then
                  '(v, r3) ← parse_value f r2;
                  let acc' := obj_set k v acc in
                  match skip_ws r3 with
                  | String c r4 =>
                      if (c =? ",")%char then parse_members f acc' r4
                      else if (c =? "}")%char then Some (acc', r4)
                      else None
                  | EmptyString => None
                  end
                else None
            | EmptyString => None
            end
          else None
      | EmptyString => None
      end
  end.

Definition parse (s : string) : option json :=
  '(v, rest) ← parse_value (2 * String.length s + 2) s;
  if String.eqb (skip_ws rest) "" then Some v else None.

Fixpoint member (k : string) (m : list (string * json)) : option json :=
  match m with
  | [] => None
  | (k', v) :: r => if String.eqb k k' then Some v else member k r
  end.

(** *** The codecs at the declared types *)

Definition syntaxError : Error := Exception "SyntaxError".

Definition json_string (j : option json) : option string :=
  match j with
  | Some (JStr s) => Some s
  | _ => None
  end.

Definition json_number (j : option json) : option Z :=
  match j with
  | Some (JNum n) => Some n
  | _ => None
  end.

Definition field (k : string) (v : option string) : list (string * json) :=
  match v with
  | Some s => [(k, JStr s)]
  | None => []
  end.

(** [StoredValue<string>]: an undefined field is left out of the text. *)
Definition stored_to_json (p : StoredValue string) : json :=
  JObj (field "value" (value p)
        ++ match expiresAt p with
           | Some e => [("expiresAt", JNum e)]
           | None => []
           end).

(** A property read on a value that is not an object is undefined; a
    field of another type than the declared one reads as missing. *)
Definition stored_of_json (j : json) : option (StoredValue string) :=
  match j with
  | JNull => None
  | JObj m =>
      Some {| value := json_string (member "value" m);
              expiresAt := json_number (member "expiresAt" m) |}
  | _ => Some {| value := None; expiresAt := None |}
  end.

Definition user_to_json (u : AuthUser) : json :=
  JObj ([("id", JStr (id u)); ("name", JStr (name u)); ("email", JStr (email u))]
        ++ field "avatarUrl" (avatarUrl u)
        ++ field "dateOfBirth" (dateOfBirth u)
        ++ field "secretAnswer" (secretAnswer u)).

Definition user_of_json (j : json) : option AuthUser :=
  match j with
  | JNull => None
  | JObj m =>
      Some {| id := default "" (json_string (member "id" m));
              name := default "" (json_string (member "name" m));
              email := default "" (json_string (member "email" m));
              avatarUrl := json_string (member "avatarUrl" m);
              dateOfBirth := json_string (member "dateOfBirth" m);
              secretAnswer := json_string (member "secretAnswer" m) |}
  | _ =>
      Some {| id := ""; name := ""; email := ""; avatarUrl := None;
              dateOfBirth := None; secretAnswer := None |}
  end.

Definition parse_as {A : Type} (decode : json -> option A) (s : string)
    : Result (option A) :=
  match parse s with
  | Some j => Ret (decode j)
  | None => Throw syntaxError
  end.

#[export] Instance stored_json : Json (StoredValue string) :=
  {| JSON_stringify p := print (stored_to_json p);
     JSON_parse := parse_as stored_of_json |}.

#[export] Instance user_json : Json AuthUser :=
  {| JSON_stringify u := print (user_to_json u);
     JSON_parse := parse_as user_of_json |}.

(** *** base-64 *)

Definition TABLE : string :=
  "ABCDEFGHIJKLMNOPQRSTUVWXYZabcdefghijklmnopqrstuvwxyz0123456789+/".

Definition sextet (n : N) : ascii :=
  default "="%char (String.get (N.to_nat n) TABLE).

Fixpoint encode (s : string) : string :=
  match s with
  | String a (String b (String c r)) =>
      let n := ((N_of_ascii a * 256 + N_of_ascii b) * 256 + N_of_ascii c)%N in
      String (sextet (n / 262144))
        (String (sextet (n / 4096 mod 64))
          (String (sextet (n / 64 mod 64))
            (String (sextet (n mod 64)) (encode r))))
  | String a (String b EmptyString) =>
      let n := ((N_of_ascii a * 256 + N_of_ascii b) * 4)%N in
      String (sextet (n / 4096))
        (String (sextet (n / 64 mod 64))
          (String (sextet (n mod 64)) "="))
  | String a EmptyString =>
      let n := (N_of_ascii a * 16)%N in
      String (sextet (n / 64)) (String (sextet (n mod 64)) "==")
  | EmptyString => ""
  end.

Fixpoint index_of (c : ascii) (t : string) : option N :=
  match t with
  | EmptyString => None
  | String c' r => if (c =? c')%char then Some 0%N else N.succ <$> index_of c r
  end.

Definition is_space (c : ascii) : bool :=
  is_ws c || (c =? "012")%char.

Fixpoint strip_spaces (s : string) : string :=
  match s with
  | EmptyString => ""
  | String c r => if is_space c then strip_spaces r else String c (strip_spaces r)
  end.

(** Drop one or two trailing padding characters. *)
Definition strip_padding (s : string) : string :=
  let n := String.length s in
  if String.eqb (String.substring (n - 2) 2 s) "==" then String.substring 0 (n - 2) s
  else if String.eqb (String.substring (n - 1) 1 s) "=" then String.substring 0 (n - 1) s
  else s.

Fixpoint sextets (s : string) : option (list N) :=
  match s with
  | EmptyString => Some []
  | String c r => n ← index_of c TABLE; ns ← sextets r; Some (n :: ns)
  end.

(** The decoding loop: [bitCounter] counts the sextets read and
    [bitStorage] accumulates those of the current group. *)
Fixpoint decode_loop (input : list N) (bitCounter : N) (bitStorage : N) : string :=
  match input with
  | [] => ""
  | buffer :: r =>
      let storage :=
        if (bitCounter mod 4 =? 0)%N then buffer else (bitStorage * 64 + buffer)%N in
      if (bitCounter mod 4 =? 0)%N then decode_loop r (bitCounter + 1) storage
      else
        let shift := (6 - 2 * (bitCounter mod 4))%N in
        String (ascii_of_N (N.shiftr storage shift mod 256))
               (decode_loop r (bitCounter + 1) storage)
  end.

Definition decode (input : string) : Result string :=
  let s := strip_spaces input in
  let s := if (String.length s mod 4 =? 0)%nat then strip_padding s else s in
  if (String.length s mod 4 =? 1)%nat
  then Throw (Exception "InvalidCharacterError")
  else match sextets s with
       | Some ns => Ret (decode_loop ns 0 0)
       | None => Throw (Exception "InvalidCharacterError")
       end.

#[export] Instance base64 : Base64 :=
  {| toBase64 := encode; fromBase64 := decode |}.

End Reference.

(** ** Histories

    Sequences of operations on the hook and of events on the passwords
    screen, used to state what holds along every run. *)

Module History.
Import AsyncStorage Storage App.

Inductive KeyOp :=
| SetKey (v : string) (persist : bool) (now : Z)
| ClearKey
| Hydrate (now : Z).

(** [HandleReveal] is a call whose request is answered at once.  When
    other events run while the request is in flight, the call shows up
    later as its continuation alone: [Revealed] after a successful
    decrypt, [RevealFailed] for the [catch] block. *)
Inductive ScreenEvent :=
| KeyEvent (op : KeyOp)
| HandleReveal (id : string) (reply : Api.Reply PasswordsScreen.RevealData) (now : Z)
| Revealed (id secret : string) (now : Z)
| RevealFailed (e : Error)
| Fire (h : positive).

(** The event is not a reveal of record [id]. *)
Definition leaves_alone (id : string) (e : ScreenEvent) : Prop :=
  match e with
  | HandleReveal id' _ _ | Revealed id' _ _ => id' <> id
  | KeyEvent _ | RevealFailed _ | Fire _ => True
  end.

Section WithPlatform.
Context `{!Json (StoredValue string)} `{!Base64}.

Definition key_step (s : EncryptionKey.State * Store) (op : KeyOp)
    : EncryptionKey.State * Store :=
  match op with
  | SetKey v persist now => EncryptionKey.setKey v persist now s.1 s.2
  | ClearKey => EncryptionKey.clearKey s.1 s.2
  | Hydrate now => EncryptionKey.hydrate now s.1 s.2
  end.

Definition key_run (ops : list KeyOp) (s : EncryptionKey.State * Store)
    : EncryptionKey.State * Store :=
  fold_left key_step ops s.

(** The entry [setKey] persists for value [v] at time [now]. *)
Definition key_entry (v : string) (now : Z) : StoredValue string :=
  {| value := Some (Crypto.encodeKey v);
     expiresAt := Some (now + EncryptionKey.TTL_MS) |}.

Definition screen_step (w : World) (e : ScreenEvent) : World :=
  match e with
  | KeyEvent (SetKey v persist now) => PasswordsScreen.setKey v persist now w
  | KeyEvent ClearKey => PasswordsScreen.clearKey w
  | KeyEvent (Hydrate now) => PasswordsScreen.hydrateKey now w
  | HandleReveal id reply now =>
      PasswordsScreen.handleReveal AuthProvider.registered id reply now w
  | Revealed id secret now => PasswordsScreen.reveal id secret now w
  | RevealFailed e => PasswordsScreen.revealFailed e w
  | Fire h => PasswordsScreen.fire h w
  end.

Definition screen_run (es : list ScreenEvent) (w : World) : World :=
  fold_left screen_step es w.

(** What the hook shows on a render at time [now]: the mirror, whatever
    the clock says. *)
Definition render_key (now : Z) (k : EncryptionKey.State) : option string :=
  EncryptionKey.encodedKey k.

(** The persisted slot is empty or holds the entry of a persisting
    [setKey] of the history. *)
Definition persisted_by (ops : list KeyOp) (st : Store) : Prop :=
  st !! EncryptionKey.STORAGE_KEY = None
  \/ exists v t0,
       In (SetKey v true t0) ops
       /\ st !! EncryptionKey.STORAGE_KEY = Some (JSON_stringify (key_entry v t0)).

End WithPlatform.

(** A handler that fails when it is called. *)
Definition failing_handler : Api.Handler unit :=
  fun s => (s, Some (Exception "handler failed")).

(** A 401 answer of the backend. *)
Definition unauthorized : AxiosError :=
  {| response := Some {| status := 401 |};
     message := "Request failed with status code 401" |}.

(** Every pending callback is the one its record's slot in [hideTimers]
    names, and its handle has been handed out. *)
Definition timers_tracked (w : World) : Prop :=
  forall h t,
    Timers.pending (timers w) !! h = Some t ->
    PasswordsState.hideTimers (passwords w) !! Timers.target t = Some h
    /\ (h < Timers.next (timers w))%positive.

(** No two pending callbacks are for the same record. *)
Definition at_most_one_timer (w : World) : Prop :=
  forall h1 h2 t1 t2,
    Timers.pending (timers w) !! h1 = Some t1 ->
    Timers.pending (timers w) !! h2 = Some t2 ->
    Timers.target t1 = Timers.target t2 -> h1 = h2.

(** What the screen shows for record [id]. *)
Definition revealed (id : string) (w : World) : option string :=
  PasswordsState.revealedPasswords (passwords w) !! id.

(** A payload survives [JSON.stringify] then [JSON.parse]. *)
Definition round_trips {A : Type} `{!Json A} (p : A) : Prop :=
  JSON_stringify p <> "" /\ JSON_parse (JSON_stringify p) = Ret (Some p).

(** A handler instrumented with the number of times it ran. *)
Definition counted {S : Type} (h : Api.Handler S) : Api.Handler (S * nat) :=
  fun s => let '(s', thrown) := h s.1 in ((s', Datatypes.S s.2), thrown).

End History.

(** ** Scenarios

    Concrete stores and worlds on the reference platform. *)

Module Scenarios.
Import AsyncStorage Storage AuthContext App Reference.

(** The key "1234", encoded, written at time 0 with a TTL of 300000 ms. *)
Definition scenario_store : Store :=
  setItemWithTTL "securevault:ekey" "MTIzNA==" (Some 300000) 0 ∅.

Definition alice : AuthUser :=
  {| id := "u1"; name := "Alice"; email := "alice@example.org";
     avatarUrl := None; dateOfBirth := Some "1990-01-01"; secretAnswer := None |}.

Definition alice_renamed : AuthUser :=
  {| id := "u1"; name := "Alice B."; email := "alice@example.org";
     avatarUrl := None; dateOfBirth := Some "1990-01-01"; secretAnswer := None |}.

(** After [completeLogin(token = "abc", user, keyConfigured = true)]. *)
Definition signed_in : World :=
  AuthProvider.completeLogin
    {| payload_token := "abc"; payload_user := alice;
       payload_encryptionKeyConfigured := Some true |}
    initial.

(** Signed in, and both screens hold the key "1234" set at time 0. *)
Definition unlocked : World :=
  NotesScreen.setKey "1234" true 0 (PasswordsScreen.setKey "1234" true 0 signed_in).

(** A store whose entries are empty strings. *)
Definition blank_store : Store :=
  {[ "securevault:ekey" := ""; "securevault:user" := "" ]}.

(** A store whose entries are not JSON. *)
Definition garbled_store : Store :=
  {[ "securevault:ekey" := "{oops"; "securevault:user" := "{oops" ]}.

Definition with_store (st : Store) : World := with_storage (fun _ => st) initial.

End Scenarios.

(** ** More of the client

    The callers of the hook and of the provider, and what a restart of
    the process does. *)

Module Text.
Local Open Scope string_scope.

(** What [String.prototype.trim] strips, on Latin-1 text: tab, line
    feed, vertical tab, form feed, carriage return, space and the
    no-break space. *)
Definition is_space (c : ascii) : bool :=
  (c =? "009")%char || (c =? "010")%char || (c =? "011")%char
  || (c =? "012")%char || (c =? "013")%char || (c =? " ")%char
  || (c =? "160")%char.

Fixpoint trimStart (s : string) : string :=
  match s with
  | String c r => if is_space c then trimStart r else s
  | EmptyString => ""
  end.

Fixpoint trimEnd (s : string) : string :=
  match s with
  | EmptyString => ""
  | String c r =>
      match trimEnd r with
      | EmptyString => if is_space c then "" else String c ""
      | String d r' => String c (String d r')
      end
  end.

Definition trim (s : string) : string := trimEnd (trimStart s).

(** The text does not begin with white space. *)
Definition starts_clean (s : string) : Prop :=
  match s with
  | String c _ => is_space c = false
  | EmptyString => True
  end.

End Text.

Module Lifecycle.
Import AsyncStorage AuthContext App.

(** The process is killed and started again: React state, the axios
    instance and the timers start afresh, AsyncStorage is kept. *)
Definition relaunch (w : World) : World :=
  with_storage (fun _ => storage w) App.initial.

(** A token as the code tests it: an empty token counts as none. *)
Definition effective (t : option string) : option string :=
  match t with
  | Some s => if String.eqb s "" then None else Some s
  | None => None
  end.

(** What happens to a session. *)
Inductive SessionOp :=
| Login (p : AuthSessionPayload)
| SignOut
| Refresh (reply : Api.Reply AuthUser)
| SetKeyConfigured (v : bool)
| Unauthorized (error : AxiosError)
| Relaunch.

Section WithJson.
Context `{!Json AuthUser}.

Definition session_step (w : World) (op : SessionOp) : World :=
  match op with
  | Login p => AuthProvider.completeLogin p w
  | SignOut => AuthProvider.signOut w
  | Refresh reply => (AuthProvider.refreshUser AuthProvider.registered reply w).1
  | SetKeyConfigured v => AuthProvider.setEncryptionKeyConfigured v w
  | Unauthorized error =>
      (Api.responseError AuthProvider.registered error w).1
  | Relaunch => AuthProvider.hydrate (relaunch w)
  end.

Definition session_run (ops : list SessionOp) (w : World) : World :=
  fold_left session_step ops w.

End WithJson.

(** Memory, store and outbound header tell the same story. *)
Definition session_coherent (w : World) : Prop :=
  effective (storage w !! AuthProvider.AUTH_TOKEN_KEY) = effective (token (auth w))
  /\ Api.authorization (client w)
     = (fun t => "Bearer " +:+ t) <$> effective (token (auth w))
  /\ ((storage w !! AuthProvider.AUTH_KEY_FLAG = None
       /\ encryptionKeyConfigured (auth w) = false)
      \/ storage w !! AuthProvider.AUTH_KEY_FLAG
         = Some (if encryptionKeyConfigured (auth w) then "true" else "false")).

End Lifecycle.

(** *** passwords.tsx and the notes screen: the PIN prompt *)

Module KeyPrompt.
Import AsyncStorage Storage Crypto App.

(** The state of [EncryptionKeyModal]. *)
Record Modal := {
  key : string;
  isSubmitting : bool;
}.

Section WithPlatform.
Context `{!Json (StoredValue string)} `{!Base64}.

Definition verify : Api.Request :=
  {| Api.method := "POST"; Api.url := "/pin/verify" |}.

(** [handleKeySubmit] of the passwords screen. *)
Definition handleKeySubmit (m : Api.Registry World) (v : string)
    (reply : Api.Reply unit) (now : Z) (w : World) : World :=
  let candidate := Text.trim v in
  if String.eqb candidate "" then w
  else
    match request m verify reply w with
    | (w1, Ret _) =>
        let w2 := PasswordsScreen.setKey candidate true now w1 in
        let w3 := AuthProvider.setEncryptionKeyConfigured true w2 in
        with_passwords (PasswordsState.setPromptKey false) w3
    | (w1, Throw _) => w1
    end.

(** [handleKeySubmit] of the notes screen. *)
Definition handleKeySubmitNotes (m : Api.Registry World) (v : string)
    (reply : Api.Reply unit) (now : Z) (w : World) : World :=
  let candidate := Text.trim v in
  if String.eqb candidate "" then w
  else
    match request m verify reply w with
    | (w1, Ret _) =>
        let w2 := NotesScreen.setKey candidate true now w1 in
        let w3 := AuthProvider.setEncryptionKeyConfigured true w2 in
        with_notes (NotesState.setPromptKey false) w3
    | (w1, Throw _) => w1
    end.

(** [handleSubmit] of the modal the passwords screen shows, with
    [onConfirm = handleKeySubmit] and [onClose = () => setPromptKey(false)]. *)
Definition handleSubmit (m : Api.Registry World) (reply : Api.Reply unit)
    (now : Z) (md : Modal) (w : World) : Modal * World :=
  if String.eqb (Text.trim (key md)) "" then (md, w)
  else
    let w1 := handleKeySubmit m (Text.trim (key md)) reply now w in
    ({| key := ""; isSubmitting := false |},
     with_passwords (PasswordsState.setPromptKey false) w1).

End WithPlatform.
End KeyPrompt.

(** *** passwords.tsx: the cleanup on unmount *)

Module PasswordsCleanup.
Import App.

(** [Object.values(timers).forEach((timer) => clearTimeout(timer))] *)
Definition unmount (w : World) : World :=
  with_timers
    (fun rt =>
       fold_left (fun acc h => Timers.clearTimeout h acc)
         (map snd (map_to_list (PasswordsState.hideTimers (passwords w)))) rt)
    w.

End PasswordsCleanup.

(** *** The notes screen: expanding a note *)

Module NotesView.
Import App.

(** [expandedId] *)
Record View := { expandedId : option string }.

Section WithPlatform.
Context `{!Json (Storage.StoredValue string)} `{!Base64}.

(** [toggleExpand]; [reply] answers the decrypt request, if one is sent. *)
Definition toggleExpand (m : Api.Registry World) (noteId : string)
    (reply : Api.Reply NotesScreen.NoteData) (v : View) (w : World)
    : View * World :=
  if decide (expandedId v = Some noteId) then ({| expandedId := None |}, w)
  else
    ({| expandedId := Some noteId |},
     if truthy_string (NotesState.activeContent (notes w) !! noteId) then w
     else NotesScreen.decryptNote m noteId reply w).

End WithPlatform.
End NotesView.

(** *** The account screen *)

Module AccountScreen.
Import Crypto App.

Record State := { deleteVisible : bool }.

Section WithPlatform.
Context `{!Base64}.

Definition safeDecode (value : option string) : string :=
  match value with
  | Some v =>
      if String.eqb v "" then ""
      else match decodeKey v with
           | Ret decoded => decoded
           | Throw _ => v
           end
  | None => ""
  end.

Definition handleDeleteAccount (m : Api.Registry World) (reply : Api.Reply unit)
    (a : State) (w : World) : State * World :=
  match request m {| Api.method := "DELETE"; Api.url := "/user/delete" |} reply w with
  | (w1, Ret _) => ({| deleteVisible := false |}, AuthProvider.signOut w1)
  | (w1, Throw _) => (a, w1)
  end.

End WithPlatform.
End AccountScreen.

(** * Properties *)

Ltac split_conj := repeat match goal with |- _ /\ _ => split end.

(** Reduce record projections and setters only: storage keys and map
    operations stay folded. *)
Ltac project :=
  cbn [fst snd
       App.storage App.client App.timers App.auth App.passwords App.notes
       App.with_storage App.with_client App.with_timers App.with_auth
       App.with_passwords App.with_notes
       Api.authorization Api.sent Api.setAuthToken Api.issue
       Timers.pending Timers.next Timers.target Timers.due
       Timers.setTimeout Timers.clearTimeout
       AuthContext.token AuthContext.user AuthContext.isHydrated
       AuthContext.encryptionKeyConfigured AuthContext.setToken
       AuthContext.setUser AuthContext.setIsHydrated AuthContext.setKeyConfigured
       PasswordsState.key PasswordsState.promptKey PasswordsState.revealedPasswords
       PasswordsState.hideTimers PasswordsState.setKeyState
       PasswordsState.setPromptKey PasswordsState.setRevealedPasswords
       PasswordsState.setHideTimers
       NotesState.key NotesState.promptKey NotesState.activeContent
       NotesState.setKeyState NotesState.setPromptKey NotesState.setActiveContent
       EncryptionKey.rawKey EncryptionKey.isHydrated
       Storage.value Storage.expiresAt] in *.

(** Two worlds with the same components are the same world. *)
Lemma world_eq (w1 w2 : App.World) :
  App.storage w1 = App.storage w2 -> App.client w1 = App.client w2 ->
  App.timers w1 = App.timers w2 -> App.auth w1 = App.auth w2 ->
  App.passwords w1 = App.passwords w2 -> App.notes w1 = App.notes w2 ->
  w1 = w2.
Proof. destruct w1, w2. simpl. by intros -> -> -> -> -> ->. Qed.

(** Closed goals are evaluated. *)
Ltac by_eval :=
  vm_compute; first [reflexivity | discriminate | eexists; reflexivity].

(** ** The TTL cache *)

Section TTLCache.
Import AsyncStorage Storage.
Context {T : Type} `{!Json (StoredValue T)}.

Lemma expired_iff (e now : Z) :
  e <> 0 -> expired (Some e) now = true <-> e < now.
Proof.
  intros He. unfold expired.
  destruct (Z.eqb_spec e 0) as [->|_]; [done|]. simpl.
  apply Z.ltb_lt.
Qed.

Lemma expired_none (now : Z) : expired None now = false.
Proof. reflexivity. Qed.

Lemma nonempty_eqb (raw : string) : raw <> "" -> String.eqb raw "" = false.
Proof. intros H. by apply String.eqb_neq. Qed.

(** What a read does once the text under the key has parsed. *)
Lemma getItemWithTTL_parsed (key raw : string) (p : StoredValue T)
    (now : Z) (st : Store) :
  st !! key = Some raw -> raw <> "" -> JSON_parse raw = Ret (Some p) ->
  getItemWithTTL key now st =
    if expired (expiresAt p) now then (None, delete key st) else (value p, st).
Proof.
  intros Hraw Hne Hparse. unfold getItemWithTTL, getItem.
  by rewrite Hraw, (nonempty_eqb _ Hne), Hparse.
Qed.

(** What a read does when parsing throws. *)
Lemma getItemWithTTL_corrupt (key raw : string) (e : Error) (now : Z) (st : Store) :
  st !! key = Some raw -> raw <> "" -> JSON_parse raw = Throw e ->
  getItemWithTTL (T:=T) key now st = (None, delete key st).
Proof.
  intros Hraw Hne Hparse. unfold getItemWithTTL, getItem.
  by rewrite Hraw, (nonempty_eqb _ Hne), Hparse.
Qed.

Lemma getItemWithTTL_other_keys (key k : string) (now : Z) (st : Store) :
  k <> key -> (getItemWithTTL (T:=T) key now st).2 !! k = st !! k.
Proof.
  intros Hk. unfold getItemWithTTL, getItem, AsyncStorage.removeItem.
  destruct (st !! key) as [raw|]; [|done].
  destruct (String.eqb raw ""); [done|].
  destruct (JSON_parse raw) as [[p|]|]; simpl;
    try destruct (expired _ _); simpl; by rewrite ?lookup_delete_ne.
Qed.

(** C1, as amended: an entry whose [expiresAt] is a set, non-zero
    timestamp is purged by a read strictly after [expiresAt]: the read
    answers absent and the raw store no longer has the key.  At the
    instant [now = expiresAt], and before it, the entry is live: the read
    answers its value and leaves the store alone. *)
Theorem getItemWithTTL_purges_after_expiry
    (key raw : string) (p : StoredValue T) (e now : Z) (st : Store) :
  st !! key = Some raw -> raw <> "" -> JSON_parse raw = Ret (Some p) ->
  expiresAt p = Some e -> e <> 0 ->
  (e < now ->
     getItemWithTTL key now st = (None, delete key st)
     /\ getItem key (getItemWithTTL (T:=T) key now st).2 = None)
  /\ (now <= e -> getItemWithTTL key now st = (value p, st)).
Proof.
  intros Hraw Hne Hparse He H0.
  rewrite (getItemWithTTL_parsed _ _ _ _ _ Hraw Hne Hparse), He.
  split; intros Hlt.
  - assert (expired (Some e) now = true) as -> by (by apply expired_iff).
    split; [done|]. apply lookup_delete_eq.
  - destruct (expired (Some e) now) eqn:E; [|done].
    apply expired_iff in E; [lia|done].
Qed.

(** C10: a TTL of 0 milliseconds writes an entry without [expiresAt],
    and a read at any time answers the value and keeps the entry. *)
Theorem setItemWithTTL_zero_ttl_never_expires
    (key : string) (v : T) (t0 : Z) (st : Store) :
  let payload := {| value := Some v; expiresAt := None |} in
  History.round_trips payload ->
  getItem key (setItemWithTTL key v (Some 0) t0 st) = Some (JSON_stringify payload)
  /\ forall now,
       getItemWithTTL key now (setItemWithTTL key v (Some 0) t0 st)
       = (Some v, setItemWithTTL key v (Some 0) t0 st).
Proof.
  intros payload [Hne Hrt].
  assert (Hget : setItemWithTTL key v (Some 0) t0 st !! key
                 = Some (JSON_stringify payload))
    by apply lookup_insert_eq.
  split; [exact Hget|]. intros now.
  by rewrite (getItemWithTTL_parsed _ _ _ _ _ Hget Hne Hrt).
Qed.

End TTLCache.

(** ** The cached unlock key *)

Section KeyCache.
Import AsyncStorage Storage Crypto EncryptionKey History.
Context `{!Json (StoredValue string)} `{!Base64}.

Lemma key_run_snoc (ops : list KeyOp) (op : KeyOp) (s : State * Store) :
  key_run (ops ++ [op]) s = key_step (key_run ops s) op.
Proof. unfold key_run. by rewrite fold_left_app. Qed.

Lemma persisted_by_weaken (ops : list KeyOp) (op : KeyOp) (st : Store) :
  persisted_by ops st -> persisted_by (ops ++ [op]) st.
Proof.
  intros [Hnone|(v & t0 & Hin & Hst)]; [by left|].
  right. exists v, t0. split; [|done]. apply in_or_app. by left.
Qed.

Lemma persisted_by_deleted (ops : list KeyOp) (st : Store) :
  persisted_by ops (delete STORAGE_KEY st).
Proof. left. apply lookup_delete_eq. Qed.

Lemma persisted_by_read (ops : list KeyOp) (now : Z) (st : Store) :
  persisted_by ops st ->
  persisted_by ops (getItemWithTTL (T:=string) STORAGE_KEY now st).2.
Proof.
  intros Hinv. unfold getItemWithTTL, getItem, AsyncStorage.removeItem.
  destruct (st !! STORAGE_KEY) as [raw|] eqn:Hraw; [|done].
  destruct (String.eqb raw ""); [done|].
  destruct (JSON_parse raw) as [[p|]|]; simpl;
    try destruct (expired _ _); simpl;
    auto using persisted_by_deleted.
Qed.

Lemma persisted_by_step (ops : list KeyOp) (op : KeyOp) (s : State * Store) :
  persisted_by ops s.2 -> persisted_by (ops ++ [op]) (key_step s op).2.
Proof.
  intros Hinv. destruct op as [v [|] now| |now]; simpl.
  - right. exists v, now. split.
    + apply in_or_app. right. by left.
    + unfold setItemWithTTL, setItem, key_entry, TTL_MS. simpl.
      apply lookup_insert_eq.
  - by apply persisted_by_weaken.
  - apply persisted_by_deleted.
  - unfold hydrate.
    pose proof (persisted_by_read ops now s.2 Hinv) as Hread.
    destruct (getItemWithTTL STORAGE_KEY now s.2) as [stored st'].
    by apply persisted_by_weaken.
Qed.

Lemma persisted_by_run (ops : list KeyOp) (s : State * Store) :
  s.2 !! STORAGE_KEY = None -> persisted_by ops (key_run ops s).2.
Proof.
  intros Hempty. induction ops as [|op ops IH] using rev_ind.
  - by left.
  - rewrite key_run_snoc. by apply persisted_by_step.
Qed.

(** C2, as amended: a read that goes through the TTL cache never
    answers a key set more than [TTL_MS] before the read, along every
    history of [setKey], [clearKey] and hydration; the in-memory mirror
    has no expiry and shows the key last set at every later render. *)
Theorem cached_key_fresh_through_cache_only
    (ops : list KeyOp) (t : Z) (k : string) :
  ((forall v p t0, In (SetKey v p t0) ops -> 0 <= t0) ->
   (forall v t0, In (SetKey v true t0) ops -> round_trips (key_entry v t0)) ->
   (getItemWithTTL STORAGE_KEY t (key_run ops (initial, ∅)).2).1 = Some k ->
   exists v t0,
     In (SetKey v true t0) ops /\ k = encodeKey v /\ t - t0 <= TTL_MS)
  /\ (forall v p t0 s,
        render_key t (key_run (ops ++ [SetKey v p t0]) s).1 = Some (encodeKey v)).
Proof.
  split.
  - intros Htime Hrt Hread.
    destruct (persisted_by_run ops (initial, ∅)) as [Hnone|(v & t0 & Hin & Hst)];
      [apply lookup_empty| |].
    + unfold getItemWithTTL, getItem in Hread. by rewrite Hnone in Hread.
    + destruct (Hrt v t0 Hin) as [Hne Hparse].
      rewrite (getItemWithTTL_parsed _ _ _ _ _ Hst Hne Hparse) in Hread.
      exists v, t0. split; [done|].
      assert (Hnz : t0 + TTL_MS <> 0)
        by (specialize (Htime v true t0 Hin); unfold TTL_MS; lia).
      cbn [key_entry expiresAt value] in Hread.
      destruct (expired (Some (t0 + TTL_MS)) t) eqn:E; cbn [fst] in Hread; [done|].
      split; [congruence|].
      destruct (Z.lt_ge_cases (t0 + TTL_MS) t) as [Hlt|Hge]; [|lia].
      apply (expired_iff _ _ Hnz) in Hlt. congruence.
  - intros v p t0 s. rewrite key_run_snoc. unfold render_key, encodedKey.
    simpl. unfold setKey. by destruct p.
Qed.

End KeyCache.

(** ** The reference platform

    The reference codec is faithful on the entries the TTL cache
    writes: what [print] writes for a string or a number, [parse] reads
    back. *)

Section ReferencePlatform.
Import Storage Reference.
Local Open Scope string_scope.

Lemma append_assoc (a b c : string) : (a +:+ b) +:+ c = a +:+ (b +:+ c).
Proof.
  induction a as [|x a IH]; [reflexivity|].
  change (String x ((a +:+ b) +:+ c) = String x (a +:+ (b +:+ c))).
  by rewrite IH.
Qed.

(** One escaped character reads back as the character. *)
Lemma parse_chars_escape (c : ascii) (rest : string) :
  parse_chars (escape c +:+ rest)
  = '(t, r) ← parse_chars rest; Some (String c t, r).
Proof.
  destruct c as [[] [] [] [] [] [] [] []]; reflexivity.
Qed.

Lemma parse_chars_quoted (s rest : string) :
  parse_chars (escape_all s +:+ String dquote rest) = Some (s, rest).
Proof.
  induction s as [|c s IH]; [reflexivity|].
  cbn [escape_all]. rewrite append_assoc, parse_chars_escape, IH. reflexivity.
Qed.

Lemma append_cons (c : ascii) (s r : string) : String c s +:+ r = String c (s +:+ r).
Proof. reflexivity. Qed.

Lemma span_digits_cons (c : ascii) (s : string) :
  is_digit c = true ->
  span_digits (String c s) = (String c (span_digits s).1, (span_digits s).2).
Proof. intros H. cbn [span_digits]. rewrite H. by destruct (span_digits s). Qed.

Lemma span_digits_uint (d : Decimal.uint) (rest : string) :
  stops_number rest ->
  span_digits (NilEmpty.string_of_uint d +:+ rest) = (NilEmpty.string_of_uint d, rest).
Proof.
  intros Hrest.
  induction d as [|d IH|d IH|d IH|d IH|d IH|d IH|d IH|d IH|d IH|d IH];
    cbn [NilEmpty.string_of_uint];
    try (rewrite append_cons, span_digits_cons by reflexivity; by rewrite IH).
  change (span_digits rest = ("", rest)).
  destruct rest as [|c r]; [done|]. destruct Hrest as [Hd _].
  cbn [span_digits]. by rewrite Hd.
Qed.

(** A printed natural number starts with a digit, and with 0 only when
    it is 0. *)
Lemma uint_head_digit (d : Decimal.uint) :
  d <> Decimal.Nil ->
  exists c t, NilEmpty.string_of_uint d = String c t
              /\ (c =? "-")%char = false
              /\ (Decimal.unorm d = d -> ((c =? "0")%char && negb (String.eqb t "")) = false).
Proof.
  intros Hd. destruct d as [|d|d|d|d|d|d|d|d|d|d]; [done|..];
    cbn [NilEmpty.string_of_uint]; eexists _, _; (split; [reflexivity|]);
    (split; [reflexivity|]); try (intros _; reflexivity).
  intros Hnorm. rewrite DecimalFacts.unorm_D0 in Hnorm.
  assert (d = Decimal.Nil) as ->; [|reflexivity].
  unfold Decimal.unorm in Hnorm.
  pose proof (DecimalFacts.nzhead_nonzero d) as Hnz.
  destruct (Decimal.nzhead d) eqn:E; congruence.
Qed.

Lemma parse_number_digits (c : ascii) (t rest : string) (n : Decimal.signed_int) :
  (c =? "-")%char = false ->
  span_digits (String c (t +:+ rest)) = (String c t, rest) ->
  ((c =? "0")%char && negb (String.eqb t "")) = false ->
  starts_fraction rest = false ->
  NilZero.int_of_string (String c t) = Some n ->
  parse_number (String c (t +:+ rest)) = Some (JNum (Z.of_int n), rest)
  /\ parse_number (String "-" (String c (t +:+ rest)))
     = Some (JNum (- Z.of_int n), rest).
Proof.
  intros Hminus Hspan Hzero Hfrac Hint. unfold parse_number.
  replace ("-" =? "-")%char with true by reflexivity.
  by rewrite Hminus, Hspan, Hzero, Hfrac, Hint.
Qed.

Lemma parse_number_uint (d : Decimal.uint) (rest : string) :
  d <> Decimal.Nil -> Decimal.unorm d = d -> stops_number rest ->
  parse_number (NilEmpty.string_of_uint d +:+ rest) = Some (JNum (Z.of_uint d), rest)
  /\ parse_number (String "-" (NilEmpty.string_of_uint d +:+ rest))
     = Some (JNum (- Z.of_uint d), rest).
Proof.
  intros Hd Hnorm Hrest.
  destruct (uint_head_digit d Hd) as (c & t & Hs & Hminus & Hzero).
  pose proof (span_digits_uint d rest Hrest) as Hspan.
  pose proof (NilZero.usu d Hd) as Hu.
  assert (NilZero.string_of_uint d = NilEmpty.string_of_uint d) as Heq
    by (by destruct d).
  rewrite Heq in Hu. rewrite Hs in *. rewrite append_cons in *.
  apply (parse_number_digits c t rest (Decimal.Pos d)); auto.
  - destruct rest; [done|]. by destruct Hrest.
  - unfold NilZero.int_of_string. rewrite Hminus. by rewrite Hu.
Qed.

Lemma pos_to_uint_norm (p : positive) :
  Pos.to_uint p <> Decimal.Nil
  /\ Decimal.unorm (Pos.to_uint p) = Pos.to_uint p
  /\ Z.of_uint (Pos.to_uint p) = Z.pos p.
Proof.
  split; [apply DecimalPos.Unsigned.to_uint_nonnil|]. split.
  - rewrite <- DecimalPos.Unsigned.to_of, DecimalPos.Unsigned.of_to. reflexivity.
  - unfold Z.of_uint. by rewrite DecimalPos.Unsigned.of_to.
Qed.

(** A printed integer reads back as the integer. *)
Lemma parse_number_print (n : Z) (rest : string) :
  stops_number rest ->
  parse_number (print (JNum n) +:+ rest) = Some (JNum n, rest).
Proof.
  intros Hrest. cbn [print].
  destruct n as [|p|p]; cbn [Z.to_int NilZero.string_of_int].
  - pose proof (parse_number_uint (Decimal.D0 Decimal.Nil) rest) as [H _]; try done.
  - destruct (pos_to_uint_norm p) as (Hnil & Hnorm & Hval).
    assert (NilZero.string_of_uint (Pos.to_uint p) = NilEmpty.string_of_uint (Pos.to_uint p))
      as -> by (by destruct (Pos.to_uint p)).
    destruct (parse_number_uint _ rest Hnil Hnorm Hrest) as [H _].
    by rewrite H, Hval.
  - destruct (pos_to_uint_norm p) as (Hnil & Hnorm & Hval).
    assert (NilZero.string_of_uint (Pos.to_uint p) = NilEmpty.string_of_uint (Pos.to_uint p))
      as -> by (by destruct (Pos.to_uint p)).
    destruct (parse_number_uint _ rest Hnil Hnorm Hrest) as [_ H].
    rewrite append_cons. by rewrite H, Hval.
Qed.

Lemma append_nil_l (s : string) : "" +:+ s = s.
Proof. reflexivity. Qed.

Ltac right_nest := repeat (rewrite append_cons || rewrite append_assoc).

Lemma number_head (n : Z) :
  exists c t, print (JNum n) = String c t
              /\ (is_digit c = true \/ c = "-"%char).
Proof.
  cbn [print]. destruct n as [|p|p]; cbn [Z.to_int NilZero.string_of_int].
  - eexists _, _. split; [reflexivity|]. by left.
  - destruct (pos_to_uint_norm p) as (Hnil & _ & _).
    destruct (Pos.to_uint p); [done|..]; eexists _, _; (split; [reflexivity|]); by left.
  - eexists _, _. split; [reflexivity|]. by right.
Qed.

Lemma parse_value_number (f : nat) (n : Z) (rest : string) :
  stops_number rest ->
  parse_value (S f) (print (JNum n) +:+ rest) = Some (JNum n, rest).
Proof.
  intros Hrest. rewrite <- (parse_number_print n rest Hrest).
  destruct (number_head n) as (c & t & -> & Hc). rewrite append_cons.
  destruct Hc as [Hc| ->]; [|reflexivity].
  destruct c as [[] [] [] [] [] [] [] []]; try discriminate Hc; reflexivity.
Qed.

(** The text of an entry, character by character. *)
Lemma entry_text (v : string) (e : option Z) :
  print (stored_to_json {| value := Some v; expiresAt := e |})
  = String "{" (String dquote ("value" +:+ String dquote (String ":" (String dquote
      (escape_all v +:+ String dquote
         match e with
         | Some n => String "," (String dquote ("expiresAt" +:+ String dquote
                       (String ":" (print (JNum n) +:+ "}"))))
         | None => "}"
         end))))).
Proof.
  destruct e as [n|]; unfold stored_to_json;
    cbn [value expiresAt field app print map commas fst snd];
    unfold quoted; right_nest; reflexivity.
Qed.

Lemma parse_value_entry (f : nat) (v : string) (e : option Z) :
  parse_value (S (S (S (S f))))
    (print (stored_to_json {| value := Some v; expiresAt := e |}))
  = Some (stored_to_json {| value := Some v; expiresAt := e |}, "").
Proof.
  rewrite entry_text. unfold stored_to_json. cbn [value expiresAt field app].
  pose proof (parse_chars_quoted v) as Hx. revert Hx.
  generalize (escape_all v). intros x Hx.
  destruct e as [n|].
  - pose proof (parse_value_number f n "}" (conj eq_refl eq_refl)) as Hnum.
    revert Hnum.
    generalize (print (JNum n)). intros num Hnum.
    remember (S f) as f' eqn:Hf'.
    repeat (rewrite append_cons || rewrite append_nil_l).
    cbn. rewrite Hx. cbn. rewrite Hnum. reflexivity.
  - repeat (rewrite append_cons || rewrite append_nil_l).
    cbn. rewrite Hx. reflexivity.
Qed.

(** Every entry with a value survives [JSON.stringify] then [JSON.parse]
    on the reference platform. *)
Lemma entry_round_trips (v : string) (e : option Z) :
  History.round_trips (A:=StoredValue string) {| value := Some v; expiresAt := e |}.
Proof.
  split.
  - cbn [JSON_stringify stored_json]. rewrite entry_text. discriminate.
  - cbn [JSON_stringify JSON_parse stored_json]. unfold parse_as, parse.
    set (s := print _).
    assert (exists f, (2 * String.length s + 2)%nat = S (S (S (S f)))) as [f ->].
    { assert (exists n, String.length s = S n) as [n ->]
        by (subst s; rewrite entry_text; eexists; reflexivity).
      exists (2 * n)%nat. lia. }
    subst s. rewrite parse_value_entry. cbn [mbind option_bind]. 
    destruct e; reflexivity.
Qed.

End ReferencePlatform.

Section TTLCacheExamples.
Import AsyncStorage Storage Reference Scenarios.

Lemma getItemWithTTL_purges_after_expiry_witness :
  getItemWithTTL (T:=string) "securevault:ekey" 300001 scenario_store
    = (None, delete "securevault:ekey" scenario_store)
  /\ getItemWithTTL (T:=string) "securevault:ekey" 299999 scenario_store
    = (Some "MTIzNA==", scenario_store).
Proof.
  assert (Hraw : scenario_store !! "securevault:ekey"
                 = Some (JSON_stringify
                           {| value := Some "MTIzNA=="; expiresAt := Some 300000 |}))
    by apply lookup_insert_eq.
  split.
  - refine (proj1 (proj1 (getItemWithTTL_purges_after_expiry
        "securevault:ekey" _
        {| value := Some "MTIzNA=="; expiresAt := Some 300000 |}
        300000 300001 scenario_store Hraw _ _ _ _) _)).
    + vm_compute; discriminate.
    + vm_compute; reflexivity.
    + reflexivity.
    + lia.
    + lia.
  - refine (proj2 (getItemWithTTL_purges_after_expiry
        "securevault:ekey" _
        {| value := Some "MTIzNA=="; expiresAt := Some 300000 |}
        300000 299999 scenario_store Hraw _ _ _ _) _).
    + vm_compute; discriminate.
    + vm_compute; reflexivity.
    + reflexivity.
    + lia.
    + lia.
Defined.

(** C1 as stated fails at the instant [now = expiresAt]: the entry has
    [expiresAt = 300000], the read at 300000 answers the value and the
    raw store still holds the entry. *)
Lemma getItemWithTTL_live_at_expiry_instant :
  (exists raw p,
      getItem "securevault:ekey" scenario_store = Some raw
      /\ JSON_parse raw = Ret (Some p)
      /\ expiresAt (T:=string) p = Some 300000)
  /\ 300000 >= 300000
  /\ (getItemWithTTL (T:=string) "securevault:ekey" 300000 scenario_store).1
     = Some "MTIzNA=="
  /\ is_Some (getItem "securevault:ekey"
       (getItemWithTTL (T:=string) "securevault:ekey" 300000 scenario_store).2).
Proof.
  split; [|split; [lia|split]].
  - eexists _, {| value := Some "MTIzNA=="; expiresAt := Some 300000 |}.
    split_conj; by_eval.
  - by_eval.
  - by_eval.
Qed.

Lemma setItemWithTTL_zero_ttl_never_expires_witness :
  getItemWithTTL (T:=string) "k" 8 (setItemWithTTL "k" "MTIzNA==" (Some 0) 7 ∅)
    = (Some "MTIzNA==", setItemWithTTL "k" "MTIzNA==" (Some 0) 7 ∅)
  /\ getItemWithTTL (T:=string) "k" 4102444800000
       (setItemWithTTL "k" "MTIzNA==" (Some 0) 7 ∅)
    = (Some "MTIzNA==", setItemWithTTL "k" "MTIzNA==" (Some 0) 7 ∅).
Proof.
  assert (Hrt : History.round_trips
                  {| value := Some "MTIzNA=="; expiresAt := None |})
    by apply entry_round_trips.
  split;
    apply (proj2 (setItemWithTTL_zero_ttl_never_expires "k" "MTIzNA==" 7 ∅ Hrt)).
Defined.

End TTLCacheExamples.

Section KeyCacheExamples.
Import AsyncStorage Storage Crypto EncryptionKey History Reference.

Lemma cached_key_fresh_through_cache_only_witness :
  (exists v t0,
      In (SetKey v true t0) [SetKey "1234" true 0; Hydrate 1000]
      /\ "MTIzNA==" = encodeKey v /\ 299999 - t0 <= TTL_MS)
  /\ render_key 299999
       (key_run ([SetKey "1234" true 0; Hydrate 1000] ++ [SetKey "9876" false 2000])
                (initial, ∅)).1
     = Some (encodeKey "9876").
Proof.
  pose proof (cached_key_fresh_through_cache_only
                [SetKey "1234" true 0; Hydrate 1000] 299999 "MTIzNA==") as [Hcache Hmirror].
  split; [apply Hcache | apply Hmirror].
  - intros v p t0 [Heq|[Heq|[]]]; inversion Heq; lia.
  - intros v t0 _. apply entry_round_trips.
  - vm_compute; reflexivity.
Defined.

(** C2 as stated fails for the mirror: the only [setKey] happens at
    time 0, and a render a day later still shows that key, although it
    was set more than [TTL_MS] before; a read through the TTL cache at
    the same time answers absent. *)
Lemma mirror_serves_key_older_than_ttl :
  let ops := [SetKey "1234" true 0] in
  let s := key_run ops (initial, ∅) in
  render_key 86400000 s.1 = Some "MTIzNA=="
  /\ decodedKey s.1 = Ret (Some "1234")
  /\ (forall v p t0, In (SetKey v p t0) ops -> TTL_MS < 86400000 - t0)
  /\ (getItemWithTTL (T:=string) STORAGE_KEY 86400000 s.2).1 = None.
Proof.
  intros ops s. split_conj; [by_eval | by_eval | | by_eval].
  intros v p t0 [Heq|[]]. inversion Heq. reflexivity.
Qed.

End KeyCacheExamples.

(** ** The unauthorized broadcaster *)

Section Broadcaster.
Import Api History.

Lemma responseError_unregistered {S : Type} (m : Registry S) (error : AxiosError) (s : S) :
  unauthorizedHandler m = None -> responseError m error s = (s, Axios error).
Proof.
  intros Hm. unfold responseError. rewrite Hm.
  by destruct (status_is 401 (Axios error)).
Qed.

Lemma responseError_other_status {S : Type} (m : Registry S) (error : AxiosError) (s : S) :
  status_is 401 (Axios error) = false -> responseError m error s = (s, Axios error).
Proof. intros Hs. unfold responseError. by rewrite Hs. Qed.

Lemma responseError_401 {S : Type} (m : Registry S) (h : Handler S) (error : AxiosError) (s : S) :
  unauthorizedHandler m = Some h -> status_is 401 (Axios error) = true ->
  responseError m error s =
    ((h s).1, match (h s).2 with Some thrown => thrown | None => Axios error end).
Proof.
  intros Hm Hs. unfold responseError. rewrite Hs, Hm.
  by destruct (h s) as [s' [x|]].
Qed.

(** C5, as amended: the interceptor leaves state and error alone when
    no handler is registered or the status is not 401; on a 401 it runs
    the registered handler exactly once; when the handler returns the
    original error is passed on unchanged, and when the handler throws,
    what it threw is passed on instead. *)
Theorem notify_runs_handler_once {S : Type}
    (m : Registry S) (error : AxiosError) (s : S) :
  (unauthorizedHandler m = None -> responseError m error s = (s, Axios error))
  /\ (status_is 401 (Axios error) = false ->
        responseError m error s = (s, Axios error)
        /\ forall h n,
             (responseError {| unauthorizedHandler := Some (counted h) |}
                error (s, n)).1.2 = n)
  /\ (forall h,
        unauthorizedHandler m = Some h -> status_is 401 (Axios error) = true ->
        (responseError m error s).1 = (h s).1
        /\ (forall n,
              (responseError {| unauthorizedHandler := Some (counted h) |}
                 error (s, n)).1.2 = Datatypes.S n)
        /\ ((h s).2 = None -> (responseError m error s).2 = Axios error)
        /\ (forall thrown,
              (h s).2 = Some thrown -> (responseError m error s).2 = thrown)).
Proof.
  split; [apply responseError_unregistered|]. split.
  - intros Hs. split; [by apply responseError_other_status|].
    intros h n. by rewrite responseError_other_status.
  - intros h Hm Hs. rewrite (responseError_401 m h error s Hm Hs).
    repeat split.
    + intros n.
      rewrite (responseError_401 {| unauthorizedHandler := Some (counted h) |}
                 (counted h) error (s, n) eq_refl Hs).
      unfold counted. simpl. by destruct (h s).
    + by intros ->.
    + by intros thrown ->.
Qed.

End Broadcaster.

Section BroadcasterExamples.
Import Api History.

Lemma notify_runs_handler_once_witness :
  responseError unregistered unauthorized tt = (tt, Axios unauthorized)
  /\ (responseError {| unauthorizedHandler := Some failing_handler |}
        unauthorized tt).2 = Exception "handler failed"
  /\ (responseError {| unauthorizedHandler := Some (counted failing_handler) |}
        unauthorized (tt, 0%nat)).1.2 = 1%nat.
Proof.
  split; [|split].
  - apply (proj1 (notify_runs_handler_once unregistered unauthorized tt)).
    reflexivity.
  - apply (proj2 (proj2 (notify_runs_handler_once
             {| unauthorizedHandler := Some failing_handler |} unauthorized tt))
             failing_handler); reflexivity.
  - apply (proj2 (proj2 (notify_runs_handler_once
             {| unauthorizedHandler := Some failing_handler |} unauthorized tt))
             failing_handler); reflexivity.
Defined.

(** C5 as stated fails when the handler fails: on a 401 the interceptor
    lets the handler's exception out, and the caller receives it in
    place of the original error. *)
Lemma failing_handler_escapes_notify :
  status_is 401 (Axios unauthorized) = true
  /\ failing_handler tt = (tt, Some (Exception "handler failed"))
  /\ (responseError {| unauthorizedHandler := Some failing_handler |}
        unauthorized tt).2 = Exception "handler failed"
  /\ Exception "handler failed" <> Axios unauthorized.
Proof. split_conj; by_eval. Qed.

End BroadcasterExamples.

(** ** The session store *)

Section Session.
Import AsyncStorage Storage AuthContext App AuthProvider.
Context `{!Json AuthUser} `{!Json (StoredValue string)} `{!Base64}.

Lemma session_keys_distinct :
  AUTH_TOKEN_KEY <> AUTH_USER_KEY /\ AUTH_TOKEN_KEY <> AUTH_KEY_FLAG
  /\ AUTH_USER_KEY <> AUTH_KEY_FLAG
  /\ AUTH_TOKEN_KEY <> EncryptionKey.STORAGE_KEY
  /\ AUTH_USER_KEY <> EncryptionKey.STORAGE_KEY
  /\ AUTH_KEY_FLAG <> EncryptionKey.STORAGE_KEY.
Proof. repeat split; discriminate. Qed.

Lemma multiRemove_session (st : Store) :
  multiRemove [AUTH_TOKEN_KEY; AUTH_USER_KEY; AUTH_KEY_FLAG] st
  = delete AUTH_KEY_FLAG (delete AUTH_USER_KEY (delete AUTH_TOKEN_KEY st)).
Proof. reflexivity. Qed.

Lemma multiRemove_session_lookup (st : Store) (k : string) :
  multiRemove [AUTH_TOKEN_KEY; AUTH_USER_KEY; AUTH_KEY_FLAG] st !! k
  = if decide (k = AUTH_TOKEN_KEY \/ k = AUTH_USER_KEY \/ k = AUTH_KEY_FLAG)
    then None else st !! k.
Proof.
  rewrite multiRemove_session, !lookup_delete.
  destruct (decide (AUTH_KEY_FLAG = k)) as [?|?];
    destruct (decide (AUTH_USER_KEY = k)) as [?|?];
    destruct (decide (AUTH_TOKEN_KEY = k)) as [?|?];
    destruct (decide (k = AUTH_TOKEN_KEY \/ k = AUTH_USER_KEY \/ k = AUTH_KEY_FLAG));
    first [done | exfalso; intuition congruence].
Qed.

Lemma multiRemove_session_idemp (st : Store) :
  multiRemove [AUTH_TOKEN_KEY; AUTH_USER_KEY; AUTH_KEY_FLAG]
    (multiRemove [AUTH_TOKEN_KEY; AUTH_USER_KEY; AUTH_KEY_FLAG] st)
  = multiRemove [AUTH_TOKEN_KEY; AUTH_USER_KEY; AUTH_KEY_FLAG] st.
Proof.
  apply map_eq. intros k. rewrite !multiRemove_session_lookup.
  by case_decide.
Qed.

Lemma signOut_idemp (w : World) : signOut (signOut w) = signOut w.
Proof.
  apply world_eq; unfold signOut; project; try done.
  apply multiRemove_session_idemp.
Qed.

Lemma signOut_cleared (w : World) :
  token (auth (signOut w)) = None
  /\ user (auth (signOut w)) = None
  /\ encryptionKeyConfigured (auth (signOut w)) = false
  /\ Api.authorization (client (signOut w)) = None
  /\ storage (signOut w) !! AUTH_TOKEN_KEY = None
  /\ storage (signOut w) !! AUTH_USER_KEY = None
  /\ storage (signOut w) !! AUTH_KEY_FLAG = None.
Proof.
  unfold signOut. project. rewrite !multiRemove_session_lookup.
  split_conj; try done; case_decide; naive_solver.
Qed.

Lemma signOut_frame (w : World) :
  passwords (signOut w) = passwords w
  /\ notes (signOut w) = notes w
  /\ timers (signOut w) = timers w
  /\ storage (signOut w) !! EncryptionKey.STORAGE_KEY
     = storage w !! EncryptionKey.STORAGE_KEY.
Proof.
  unfold signOut. project. rewrite multiRemove_session_lookup.
  split_conj; try done.
Qed.

(** C7: two authorization failures in a row, with the provider's handler
    registered: each passes its own error on, and the second teardown
    leaves the cleared session exactly as the first left it. *)
Theorem session_teardown_idempotent (e1 e2 : AxiosError) (w : World) :
  status_is 401 (Axios e1) = true -> status_is 401 (Axios e2) = true ->
  let first := Api.responseError registered e1 w in
  let second := Api.responseError registered e2 first.1 in
  first.2 = Axios e1 /\ second.2 = Axios e2
  /\ second.1 = first.1
  /\ token (auth first.1) = None
  /\ user (auth first.1) = None
  /\ isAuthenticated (auth first.1) = false
  /\ encryptionKeyConfigured (auth first.1) = false
  /\ Api.authorization (client first.1) = None
  /\ storage first.1 !! AUTH_TOKEN_KEY = None
  /\ storage first.1 !! AUTH_USER_KEY = None
  /\ storage first.1 !! AUTH_KEY_FLAG = None.
Proof.
  intros H1 H2 first second. subst first second.
  rewrite (responseError_401 registered clearSession e1 w eq_refl H1).
  cbn [clearSession fst snd].
  rewrite (responseError_401 registered clearSession e2 _ eq_refl H2).
  cbn [clearSession fst snd].
  destruct (signOut_cleared w) as (Ht & Hu & Hk & Ha & Hst & Hsu & Hsk).
  split_conj;
    first [done | apply signOut_idemp | unfold isAuthenticated; by rewrite Ht].
Qed.

(** C3, as amended: [signOut] does not touch the cached unlock key:
    both screens' mirrors and the persisted encryption-key entry are
    what they were.  [clearKey] destroys the key in the hook instance
    that calls it and in the store: after the passwords screen's
    [clearKey] that screen's mirror and the entry are gone, while the
    notes screen, a second instance of the hook, keeps the mirror it
    had until it mounts again and finds the store empty. *)
Theorem signOut_keeps_cached_key (now : Z) (w : World) :
  (passwords (signOut w) = passwords w
   /\ notes (signOut w) = notes w
   /\ storage (signOut w) !! EncryptionKey.STORAGE_KEY
      = storage w !! EncryptionKey.STORAGE_KEY)
  /\ (EncryptionKey.rawKey (PasswordsState.key (passwords (PasswordsScreen.clearKey w)))
      = None
      /\ storage (PasswordsScreen.clearKey w) !! EncryptionKey.STORAGE_KEY = None
      /\ notes (PasswordsScreen.clearKey w) = notes w
      /\ EncryptionKey.rawKey
           (NotesState.key
              (notes (NotesScreen.hydrateKey now (PasswordsScreen.clearKey w))))
         = None).
Proof.
  destruct (signOut_frame w) as (Hp & Hn & _ & Hs).
  assert (Hgone : storage (PasswordsScreen.clearKey w) !! EncryptionKey.STORAGE_KEY
                  = None) by apply lookup_delete_eq.
  split_conj; try done.
  unfold NotesScreen.hydrateKey, EncryptionKey.hydrate, getItemWithTTL, getItem.
  by rewrite Hgone.
Qed.

(** C9: without a token [refreshUser] changes nothing and sends
    nothing; with a token and a fetched profile it overwrites the user
    in memory and in the store and leaves the token alone, in memory,
    in the store and on the Authorization header. *)
Theorem refreshUser_frame
    (m : Api.Registry World) (reply : Api.Reply AuthUser) (w : World) :
  (truthy_string (token (auth w)) = false -> refreshUser m reply w = (w, Ret tt))
  /\ (forall profile,
        truthy_string (token (auth w)) = true -> reply = Api.Fulfilled profile ->
        let w' := (refreshUser m reply w).1 in
        (refreshUser m reply w).2 = Ret tt
        /\ user (auth w') = Some profile
        /\ storage w' !! AUTH_USER_KEY = Some (JSON_stringify profile)
        /\ token (auth w') = token (auth w)
        /\ storage w' !! AUTH_TOKEN_KEY = storage w !! AUTH_TOKEN_KEY
        /\ Api.authorization (client w') = Api.authorization (client w)
        /\ Api.sent (client w')
           = Api.sent (client w)
               ++ [{| Api.method := "GET"; Api.url := "/user/fetch" |}]).
Proof.
  split.
  - intros Ht. unfold refreshUser. by rewrite Ht.
  - intros profile Ht -> w'. subst w'. unfold refreshUser, request.
    rewrite Ht. cbn [negb]. project. unfold setItem.
    split_conj; try done.
    + apply lookup_insert_eq.
    + by rewrite lookup_insert_ne.
Qed.

End Session.

Section SessionExamples.
Import AsyncStorage Storage AuthContext App AuthProvider Reference Scenarios.

Lemma session_teardown_idempotent_witness :
  (Api.responseError registered History.unauthorized
     (Api.responseError registered History.unauthorized signed_in).1).1
  = (Api.responseError registered History.unauthorized signed_in).1
  /\ token (auth (Api.responseError registered History.unauthorized signed_in).1)
     = None.
Proof.
  pose proof (session_teardown_idempotent History.unauthorized History.unauthorized
                signed_in eq_refl eq_refl) as (_ & _ & Hsame & Htoken & _).
  split; [exact Hsame | exact Htoken].
Defined.

(** C3 as stated fails: a signed-in session with the key cached, in the
    mirror and under the encryption-key storage key, still has it in
    both places after [signOut], and a read through the TTL cache still
    answers it. *)
Lemma signOut_leaves_cached_key_behind :
  EncryptionKey.rawKey (PasswordsState.key (passwords unlocked)) = Some "MTIzNA=="
  /\ is_Some (storage unlocked !! EncryptionKey.STORAGE_KEY)
  /\ token (auth (signOut unlocked)) = None
  /\ EncryptionKey.rawKey (PasswordsState.key (passwords (signOut unlocked)))
     = Some "MTIzNA=="
  /\ is_Some (storage (signOut unlocked) !! EncryptionKey.STORAGE_KEY)
  /\ (getItemWithTTL (T:=string) EncryptionKey.STORAGE_KEY 1000
        (storage (signOut unlocked))).1 = Some "MTIzNA==".
Proof. split_conj; by_eval. Qed.

Lemma refreshUser_frame_witness :
  refreshUser registered (Api.Fulfilled alice_renamed) initial = (initial, Ret tt)
  /\ user (auth (refreshUser registered (Api.Fulfilled alice_renamed) signed_in).1)
     = Some alice_renamed
  /\ token (auth (refreshUser registered (Api.Fulfilled alice_renamed) signed_in).1)
     = Some "abc".
Proof.
  split.
  - apply (proj1 (refreshUser_frame registered (Api.Fulfilled alice_renamed) initial)).
    reflexivity.
  - pose proof (proj2 (refreshUser_frame registered (Api.Fulfilled alice_renamed)
                         signed_in) alice_renamed eq_refl eq_refl)
      as (_ & Huser & _ & Htoken & _).
    split; [exact Huser | exact Htoken].
Defined.

End SessionExamples.

(** ** Corrupt persisted values *)

Section Corruption.
Import AsyncStorage Storage AuthContext App AuthProvider.
Context `{!Json AuthUser} `{!Json (StoredValue string)}.

Lemma hydrate_corrupt_user (raw : string) (e : Error) (w : World) :
  storage w !! AUTH_USER_KEY = Some raw -> raw <> "" ->
  JSON_parse (A:=AuthUser) raw = Throw e ->
  user (auth (hydrate w)) = user (auth w)
  /\ isHydrated (auth (hydrate w)) = true
  /\ storage (hydrate w) !! AUTH_USER_KEY = None.
Proof.
  intros Hraw Hne Hparse. unfold hydrate, multiGet. cbn [map snd].
  rewrite Hraw, (nonempty_eqb _ Hne), Hparse.
  destruct (truthy_string (storage w !! AUTH_TOKEN_KEY));
    destruct (storage w !! AUTH_KEY_FLAG) as [v|];
    try destruct (String.eqb v ""); simpl;
    repeat split; apply lookup_delete_eq.
Qed.

(** C6, as amended: a non-empty persisted text on which [JSON.parse]
    throws is deleted by the read path and reads as absent, and no
    failure reaches the caller: in [getItemWithTTL], in the hydration of
    the cached key, and in the hydration of the session, which ends
    with no user, [isHydrated] set and the user entry removed. *)
Theorem corrupt_entries_are_dropped
    (key raw : string) (now : Z) (k : EncryptionKey.State) (w : World) :
  raw <> "" ->
  (forall e,
      storage w !! key = Some raw ->
      JSON_parse (A:=StoredValue string) raw = Throw e ->
      getItemWithTTL (T:=string) key now (storage w) = (None, delete key (storage w))
      /\ getItem key (getItemWithTTL (T:=string) key now (storage w)).2 = None)
  /\ (forall e,
        storage w !! EncryptionKey.STORAGE_KEY = Some raw ->
        JSON_parse (A:=StoredValue string) raw = Throw e ->
        EncryptionKey.hydrate now k (storage w)
        = ({| EncryptionKey.rawKey := None; EncryptionKey.isHydrated := true |},
           delete EncryptionKey.STORAGE_KEY (storage w)))
  /\ (forall e,
        storage w !! AUTH_USER_KEY = Some raw ->
        JSON_parse (A:=AuthUser) raw = Throw e ->
        user (auth w) = None ->
        user (auth (hydrate w)) = None
        /\ isHydrated (auth (hydrate w)) = true
        /\ storage (hydrate w) !! AUTH_USER_KEY = None).
Proof.
  intros Hne. split; [|split].
  - intros e Hraw Hparse.
    rewrite (getItemWithTTL_corrupt _ _ _ _ _ Hraw Hne Hparse).
    split; [done|]. apply lookup_delete_eq.
  - intros e Hraw Hparse. unfold EncryptionKey.hydrate.
    by rewrite (getItemWithTTL_corrupt _ _ _ _ _ Hraw Hne Hparse).
  - intros e Hraw Hparse Huser.
    destruct (hydrate_corrupt_user raw e w Hraw Hne Hparse) as (Hu & Hh & Hs).
    by rewrite Hu.
Qed.

End Corruption.

Section CorruptionExamples.
Import AsyncStorage Storage AuthContext App AuthProvider Reference Scenarios.

Lemma corrupt_entries_are_dropped_witness :
  getItemWithTTL (T:=string) "securevault:ekey" 1000 garbled_store
    = (None, delete "securevault:ekey" garbled_store)
  /\ user (auth (hydrate (with_store garbled_store))) = None
  /\ isHydrated (auth (hydrate (with_store garbled_store))) = true
  /\ storage (hydrate (with_store garbled_store)) !! AUTH_USER_KEY = None.
Proof.
  assert (Hne : "{oops" <> "") by discriminate.
  pose proof (corrupt_entries_are_dropped "securevault:ekey" "{oops" 1000
                EncryptionKey.initial (with_store garbled_store) Hne)
    as (Hget & _ & Hhydrate).
  split.
  - apply (Hget syntaxError); vm_compute; reflexivity.
  - apply (Hhydrate syntaxError); vm_compute; reflexivity.
Defined.

(** C6 as stated fails on an empty persisted text: [JSON.parse] throws
    on it, yet the read path answers absent without deleting the entry,
    and hydration leaves the empty user entry in the store. *)
Lemma blank_entries_stay_in_store :
  JSON_parse (A:=StoredValue string) "" = Throw syntaxError
  /\ JSON_parse (A:=AuthUser) "" = Throw syntaxError
  /\ getItem "securevault:ekey" blank_store = Some ""
  /\ getItemWithTTL (T:=string) "securevault:ekey" 1000 blank_store
     = (None, blank_store)
  /\ user (auth (hydrate (with_store blank_store))) = None
  /\ isHydrated (auth (hydrate (with_store blank_store))) = true
  /\ storage (hydrate (with_store blank_store)) !! AUTH_USER_KEY = Some "".
Proof. split_conj; by_eval. Qed.

End CorruptionExamples.

(** ** Decrypt failures *)

Section DecryptFailures.
Import AsyncStorage Storage AuthContext App AuthProvider.
Context `{!Json (StoredValue string)} `{!Base64}.

Lemma request_rejected {D : Type} (r : Api.Request) (e : AxiosError) (w : World) :
  request (D:=D) registered r (Api.Rejected e) w
  = (if status_is 401 (Axios e)
     then signOut (with_client (Api.issue r) w)
     else with_client (Api.issue r) w,
     Throw (Axios e)).
Proof.
  unfold request, Api.responseError, registered, Api.onUnauthorized, clearSession.
  cbn [Api.unauthorizedHandler].
  by destruct (status_is 401 (Axios e)).
Qed.

Lemma request_keeps_cached_key {D : Type} (r : Api.Request) (reply : Api.Reply D)
    (w : World) :
  let w' := (request registered r reply w).1 in
  passwords w' = passwords w /\ notes w' = notes w /\ timers w' = timers w
  /\ storage w' !! EncryptionKey.STORAGE_KEY = storage w !! EncryptionKey.STORAGE_KEY.
Proof.
  destruct reply as [d|e]; [done|]. rewrite request_rejected.
  destruct (status_is 401 (Axios e)); [|done]. cbn [fst].
  apply (signOut_frame (with_client (Api.issue r) w)).
Qed.

(** A failed note decrypt leaves the cached key alone, whatever the status. *)
Lemma decryptNote_failure_keeps_key (noteId : string) (e : AxiosError) (w : World) :
  let w' := NotesScreen.decryptNote registered noteId (Api.Rejected e) w in
  EncryptionKey.rawKey (NotesState.key (notes w'))
  = EncryptionKey.rawKey (NotesState.key (notes w))
  /\ storage w' !! EncryptionKey.STORAGE_KEY = storage w !! EncryptionKey.STORAGE_KEY.
Proof.
  unfold NotesScreen.decryptNote.
  destruct (negb _); [done|].
  pose proof (request_keeps_cached_key (D:=NotesScreen.NoteData)
    {| Api.method := "POST"; Api.url := "/journal/" +:+ noteId |}
    (Api.Rejected e) w) as (_ & Hn & _ & Hs).
  rewrite request_rejected in *. cbn [fst] in *. by rewrite Hn.
Qed.

(** A failed reveal clears the cached key exactly on a 401. *)
Lemma handleReveal_failure (id : string) (e : AxiosError) (now : Z) (w : World) :
  truthy_string (EncryptionKey.encodedKey (PasswordsState.key (passwords w))) = true ->
  let w' := PasswordsScreen.handleReveal registered id (Api.Rejected e) now w in
  if status_is 401 (Axios e)
  then EncryptionKey.rawKey (PasswordsState.key (passwords w')) = None
       /\ storage w' !! EncryptionKey.STORAGE_KEY = None
  else EncryptionKey.rawKey (PasswordsState.key (passwords w'))
       = EncryptionKey.rawKey (PasswordsState.key (passwords w))
       /\ storage w' !! EncryptionKey.STORAGE_KEY
          = storage w !! EncryptionKey.STORAGE_KEY.
Proof.
  intros Hkey. unfold PasswordsScreen.handleReveal. rewrite Hkey. cbn [negb].
  rewrite request_rejected. unfold PasswordsScreen.revealFailed.
  destruct (status_is 401 (Axios e)).
  - unfold PasswordsScreen.clearKey, EncryptionKey.clearKey. project.
    split; [done|]. apply lookup_delete_eq.
  - done.
Qed.

End DecryptFailures.

Section DecryptFailureExamples.
Import AsyncStorage Storage AuthContext App AuthProvider Reference Scenarios History.

(** C8 at the failing input: with the key cached, a 401 on a note
    decrypt leaves the key in the mirror and in the store, where the
    same 401 on a password reveal clears both. *)
Theorem decryptNote_401_keeps_cached_key :
  status_is 401 (Axios unauthorized) = true
  /\ EncryptionKey.encodedKey (NotesState.key (notes unlocked)) = Some "MTIzNA=="
  /\ EncryptionKey.encodedKey (NotesState.key (notes
       (NotesScreen.decryptNote registered "n1" (Api.Rejected unauthorized) unlocked)))
     = Some "MTIzNA=="
  /\ is_Some (storage
       (NotesScreen.decryptNote registered "n1" (Api.Rejected unauthorized) unlocked)
       !! EncryptionKey.STORAGE_KEY)
  /\ EncryptionKey.encodedKey (PasswordsState.key (passwords
       (PasswordsScreen.handleReveal registered "p1" (Api.Rejected unauthorized)
          1000 unlocked)))
     = None
  /\ storage
       (PasswordsScreen.handleReveal registered "p1" (Api.Rejected unauthorized)
          1000 unlocked)
     !! EncryptionKey.STORAGE_KEY = None.
Proof. split_conj; by_eval. Qed.

End DecryptFailureExamples.

(** ** The reveal timers *)

Section RevealTimers.
Import AsyncStorage Storage App AuthProvider PasswordsState PasswordsScreen History.
Context `{!Json (StoredValue string)} `{!Base64}.

Lemma screen_run_snoc (es : list ScreenEvent) (e : ScreenEvent) (w : World) :
  screen_run (es ++ [e]) w = screen_step (screen_run es w) e.
Proof. unfold screen_run. by rewrite fold_left_app. Qed.

Lemma reveal_revealed (id secret : string) (now : Z) (w : World) :
  revealedPasswords (passwords (reveal id secret now w))
  = <[id := secret]> (revealedPasswords (passwords w)).
Proof. unfold reveal. simpl. by destruct (hideTimers (passwords w) !! id). Qed.

Lemma reveal_hideTimers (id secret : string) (now : Z) (w : World) :
  hideTimers (passwords (reveal id secret now w))
  = <[id := Timers.next (timers w)]> (hideTimers (passwords w)).
Proof. unfold reveal. simpl. by destruct (hideTimers (passwords w) !! id). Qed.

Lemma reveal_next (id secret : string) (now : Z) (w : World) :
  Timers.next (timers (reveal id secret now w)) = (Timers.next (timers w) + 1)%positive.
Proof. unfold reveal. simpl. by destruct (hideTimers (passwords w) !! id). Qed.

Lemma reveal_pending (id secret : string) (now : Z) (w : World) :
  Timers.pending (timers (reveal id secret now w))
  = <[Timers.next (timers w) :=
        {| Timers.target := id; Timers.due := now + HIDE_DELAY |}]>
      (match hideTimers (passwords w) !! id with
       | Some h => delete h (Timers.pending (timers w))
       | None => Timers.pending (timers w)
       end).
Proof. unfold reveal. simpl. by destruct (hideTimers (passwords w) !! id). Qed.

Lemma tracked_initial : timers_tracked App.initial.
Proof.
  intros h t Hh. unfold App.initial, Timers.initial in Hh. project.
  by rewrite lookup_empty in Hh.
Qed.

Lemma tracked_reveal (id secret : string) (now : Z) (w : World) :
  timers_tracked w -> timers_tracked (reveal id secret now w).
Proof.
  intros Hinv h t.
  rewrite reveal_pending, reveal_hideTimers, reveal_next.
  destruct (decide (h = Timers.next (timers w))) as [->|Hfresh].
  - rewrite lookup_insert_eq. intros [= <-]. simpl.
    rewrite lookup_insert_eq. split; [done|lia].
  - rewrite lookup_insert_ne by done. intros Hh.
    assert (Hold : Timers.pending (timers w) !! h = Some t).
    { destruct (hideTimers (passwords w) !! id) as [h0|]; [|done].
      apply lookup_delete_Some in Hh. tauto. }
    destruct (Hinv h t Hold) as [Hslot Hlt].
    split; [|lia].
    destruct (decide (Timers.target t = id)) as [Heq|Hother].
    + rewrite Heq in Hslot. rewrite Hslot in Hh.
      by rewrite lookup_delete_eq in Hh.
    + by rewrite lookup_insert_ne.
Qed.

Lemma tracked_fire (h : positive) (w : World) :
  timers_tracked w -> timers_tracked (fire h w).
Proof.
  intros Hinv. unfold fire.
  destruct (Timers.pending (timers w) !! h) as [t|]; [|done].
  intros h' t'. simpl. intros Hh.
  apply lookup_delete_Some in Hh as [_ Hh]. by apply Hinv.
Qed.

Lemma tracked_frame (w w' : World) :
  timers w' = timers w -> hideTimers (passwords w') = hideTimers (passwords w) ->
  timers_tracked w -> timers_tracked w'.
Proof. intros Ht Hh Hinv h t. rewrite Ht, Hh. apply Hinv. Qed.

Lemma revealFailed_frame (e : Error) (w : World) :
  timers (revealFailed e w) = timers w
  /\ hideTimers (passwords (revealFailed e w)) = hideTimers (passwords w)
  /\ revealedPasswords (passwords (revealFailed e w)) = revealedPasswords (passwords w).
Proof. unfold revealFailed. by destruct (status_is 401 e). Qed.

(** What [handleReveal] does to the screen: it reveals, or it leaves
    timers and revealed passwords alone. *)
Lemma handleReveal_cases (id : string) (reply : Api.Reply RevealData) (now : Z)
    (w : World) :
  let w' := handleReveal registered id reply now w in
  (exists secret w1,
      w' = reveal id secret now w1
      /\ timers w1 = timers w /\ passwords w1 = passwords w)
  \/ (timers w' = timers w
      /\ hideTimers (passwords w') = hideTimers (passwords w)
      /\ revealedPasswords (passwords w') = revealedPasswords (passwords w)).
Proof.
  unfold handleReveal. destruct (negb _); [by right|].
  pose proof (request_keeps_cached_key
    {| Api.method := "POST"; Api.url := "/vault/" +:+ id |} reply w)
    as (Hp & _ & Ht & _).
  destruct (request _ _ _ _) as [w1 [data|e]]; simpl in Hp, Ht.
  - destruct (match data with Text s => _ | WithPassword p => _ end) as [secret|e].
    + left. by exists secret, w1.
    + right. destruct (revealFailed_frame e w1) as (-> & -> & ->).
      by rewrite Ht, Hp.
  - right. destruct (revealFailed_frame e w1) as (-> & -> & ->).
    by rewrite Ht, Hp.
Qed.

(** The hook's operations leave timers and revealed passwords alone. *)
Lemma key_event_frame (op : KeyOp) (w : World) :
  let w' := screen_step w (KeyEvent op) in
  timers w' = timers w
  /\ hideTimers (passwords w') = hideTimers (passwords w)
  /\ revealedPasswords (passwords w') = revealedPasswords (passwords w).
Proof.
  destruct op as [v [|] now| |now]; try done.
  simpl. unfold hydrateKey, EncryptionKey.hydrate.
  by destruct (getItemWithTTL _ _ _).
Qed.

Lemma tracked_step (e : ScreenEvent) (w : World) :
  timers_tracked w -> timers_tracked (screen_step w e).
Proof.
  intros Hinv.
  destruct e as [op|id reply now|id secret now|e|h];
    [| |by apply tracked_reveal| |by apply tracked_fire].
  { destruct (key_event_frame op w) as (Ht & Hh & _). by apply (tracked_frame w). }
  2: { destruct (revealFailed_frame e w) as (Ht & Hh & _).
       by apply (tracked_frame w). }
  simpl.
  destruct (handleReveal_cases id reply now w)
    as [(secret & w1 & -> & Ht & Hp)|(Ht & Hh & _)].
  - apply tracked_reveal. apply (tracked_frame w); [done|by rewrite Hp|done].
  - by apply (tracked_frame w).
Qed.

Lemma tracked_run (es : list ScreenEvent) (w : World) :
  timers_tracked w -> timers_tracked (screen_run es w).
Proof.
  intros Hinv. induction es as [|e es IH] using rev_ind; [done|].
  rewrite screen_run_snoc. by apply tracked_step.
Qed.

Lemma tracked_at_most_one (w : World) : timers_tracked w -> at_most_one_timer w.
Proof.
  intros Hinv h1 h2 t1 t2 H1 H2 Heq.
  destruct (Hinv h1 t1 H1) as [Hs1 _]. destruct (Hinv h2 t2 H2) as [Hs2 _].
  rewrite Heq in Hs1. congruence.
Qed.

(** Events that leave record [id] alone can only forget what is shown for it. *)
Lemma revealed_step (id : string) (e : ScreenEvent) (w : World) :
  leaves_alone id e ->
  revealed id (screen_step w e) = revealed id w \/ revealed id (screen_step w e) = None.
Proof.
  intros Halone. unfold revealed.
  destruct e as [op|id' reply now|id' secret now|e|h].
  - left. by destruct (key_event_frame op w) as (_ & _ & ->).
  - cbn [screen_step leaves_alone] in *. left. destruct (handleReveal_cases id' reply now w)
      as [(secret & w1 & -> & _ & Hp)|(_ & _ & ->)]; [|done].
    rewrite reveal_revealed, Hp. by rewrite lookup_insert_ne.
  - cbn [screen_step leaves_alone] in *. left.
    rewrite reveal_revealed. by rewrite lookup_insert_ne.
  - cbn [screen_step]. left.
    by destruct (revealFailed_frame e w) as (_ & _ & ->).
  - cbn [screen_step]. unfold fire.
    destruct (Timers.pending (timers w) !! h) as [t|]; [|by left].
    project. destruct (decide (Timers.target t = id)) as [->|Hother].
    + right. apply lookup_delete_eq.
    + left. by rewrite lookup_delete_ne.
Qed.

Lemma revealed_run (id : string) (es : list ScreenEvent) (w : World) :
  Forall (leaves_alone id) es ->
  revealed id (screen_run es w) = revealed id w \/ revealed id (screen_run es w) = None.
Proof.
  induction es as [|e es IH] using rev_ind; [by left|].
  intros Hall. apply Forall_app in Hall as [Hes He].
  apply Forall_cons in He as [He _].
  rewrite screen_run_snoc.
  destruct (revealed_step id e (screen_run es w) He) as [Hsame|Hnone]; [|by right].
  rewrite Hsame. by apply IH.
Qed.

(** C4: along every run of reveals and timer callbacks no record has two
    pending timers.  After [reveal(id, a)] and, before or after other
    events, [reveal(id, b)], one timer is pending for [id], the one of
    the second reveal, and [b] is what is shown for [id]; from then on,
    until [id] is revealed again, what is shown for [id] is [b] or
    nothing. *)
Theorem reveal_replaces_timer
    (es mid later : list ScreenEvent) (id a b : string) (t1 t2 : Z) :
  let w0 := screen_run es App.initial in
  let w1 := screen_run mid (reveal id a t1 w0) in
  let w2 := reveal id b t2 w1 in
  let w3 := screen_run later w2 in
  (at_most_one_timer w0 /\ at_most_one_timer w1 /\ at_most_one_timer w2
   /\ at_most_one_timer w3)
  /\ (exists h,
        hideTimers (passwords w2) !! id = Some h
        /\ Timers.pending (timers w2) !! h
           = Some {| Timers.target := id; Timers.due := t2 + HIDE_DELAY |}
        /\ forall h' t',
             Timers.pending (timers w2) !! h' = Some t' ->
             Timers.target t' = id -> h' = h)
  /\ revealed id w2 = Some b
  /\ (Forall (leaves_alone id) later ->
      revealed id w3 = Some b \/ revealed id w3 = None).
Proof.
  intros w0 w1 w2 w3.
  assert (H0 : timers_tracked w0) by apply tracked_run, tracked_initial.
  assert (H1 : timers_tracked w1) by by apply tracked_run, tracked_reveal.
  assert (H2 : timers_tracked w2) by by apply tracked_reveal.
  assert (H3 : timers_tracked w3) by by apply tracked_run.
  assert (Hshown : revealed id w2 = Some b).
  { unfold revealed, w2. rewrite reveal_revealed. apply lookup_insert_eq. }
  split; [auto using tracked_at_most_one|]. split; [|split; [done|]].
  - exists (Timers.next (timers w1)).
    assert (Hslot : hideTimers (passwords w2) !! id = Some (Timers.next (timers w1))).
    { unfold w2. rewrite reveal_hideTimers. apply lookup_insert_eq. }
    split; [done|]. split.
    + unfold w2. rewrite reveal_pending. apply lookup_insert_eq.
    + intros h' t' Hh Ht. destruct (H2 h' t' Hh) as [Hs _].
      rewrite Ht in Hs. congruence.
  - intros Hall. destruct (revealed_run id later w2 Hall) as [Hsame|Hnone].
    + left. unfold w3. by rewrite Hsame.
    + by right.
Qed.

End RevealTimers.

Section RevealTimersExamples.
Import AsyncStorage Storage App AuthProvider PasswordsState PasswordsScreen.
Import History Reference Scenarios.

Lemma reveal_replaces_timer_witness :
  revealed "r1"
    (screen_run [Fire 1%positive; Fire 2%positive;
                 HandleReveal "r2" (Api.Fulfilled (Text "b3RoZXI=")) 300]
       (reveal "r1" "secretB" 200
          (screen_run [HandleReveal "r2" (Api.Fulfilled (Text "b3RoZXI=")) 150]
             (reveal "r1" "secretA" 100
                (screen_run [KeyEvent (SetKey "1234" true 0)] App.initial)))))
    = Some "secretB"
  \/ revealed "r1"
    (screen_run [Fire 1%positive; Fire 2%positive;
                 HandleReveal "r2" (Api.Fulfilled (Text "b3RoZXI=")) 300]
       (reveal "r1" "secretB" 200
          (screen_run [HandleReveal "r2" (Api.Fulfilled (Text "b3RoZXI=")) 150]
             (reveal "r1" "secretA" 100
                (screen_run [KeyEvent (SetKey "1234" true 0)] App.initial)))))
    = None.
Proof.
  apply (reveal_replaces_timer
           [KeyEvent (SetKey "1234" true 0)]
           [HandleReveal "r2" (Api.Fulfilled (Text "b3RoZXI=")) 150]
           [Fire 1%positive; Fire 2%positive;
            HandleReveal "r2" (Api.Fulfilled (Text "b3RoZXI=")) 300]
           "r1" "secretA" "secretB" 100 200).
  repeat constructor; discriminate.
Defined.

End RevealTimersExamples.

(** * More of the code *)

(** ** The TTL cache: writes, reads and other keys *)

Section TTLCacheMore.
Import AsyncStorage Storage.
Context {T : Type} `{!Json (StoredValue T)}.

(** The entry [setItemWithTTL] writes. *)
Lemma setItemWithTTL_lookup (key : string) (v : T) (ttlMs : option Z)
    (t0 : Z) (st : Store) :
  setItemWithTTL key v ttlMs t0 st !! key
  = Some (JSON_stringify
            {| value := Some v;
               expiresAt := match ttlMs with
                            | Some ttl => if ttl =? 0 then None else Some (t0 + ttl)
                            | None => None
                            end |}).
Proof. apply lookup_insert_eq. Qed.

Lemma expired_false_le (e now : Z) : now <= e -> expired (Some e) now = false.
Proof.
  intros Hle. unfold expired.
  destruct (e =? 0); [done|]. cbn [negb andb]. by apply Z.ltb_ge.
Qed.

(** X1: a value written with [setItemWithTTL], over whatever was stored
    before, is what [getItemWithTTL] answers as long as the TTL, if one
    was given, has not run out; the read leaves the store as written. *)
Theorem set_then_get_within_ttl
    (key : string) (v : T) (ttlMs : option Z) (t0 now : Z) (st : Store) :
  History.round_trips
    {| value := Some v;
       expiresAt := match ttlMs with
                    | Some ttl => if ttl =? 0 then None else Some (t0 + ttl)
                    | None => None
                    end |} ->
  (forall ttl, ttlMs = Some ttl -> ttl = 0 \/ now <= t0 + ttl) ->
  getItemWithTTL key now (setItemWithTTL key v ttlMs t0 st)
  = (Some v, setItemWithTTL key v ttlMs t0 st).
Proof.
  intros [Hne Hrt] Hlive.
  rewrite (getItemWithTTL_parsed _ _ _ _ _
             (setItemWithTTL_lookup key v ttlMs t0 st) Hne Hrt).
  cbn [expiresAt value].
  destruct ttlMs as [ttl|]; [|done].
  destruct (Z.eqb_spec ttl 0) as [->|Hnz]; [done|].
  destruct (Hlive ttl eq_refl) as [?|Hle]; [done|].
  by rewrite (expired_false_le _ _ Hle).
Qed.

(** The store after a read is the store before it, or that store
    without the key. *)
Lemma getItemWithTTL_store (key : string) (now : Z) (st : Store) :
  (getItemWithTTL (T:=T) key now st).2 = st
  \/ ((getItemWithTTL (T:=T) key now st).1 = None
      /\ (getItemWithTTL (T:=T) key now st).2 = delete key st).
Proof.
  unfold getItemWithTTL, getItem, AsyncStorage.removeItem.
  destruct (st !! key) as [raw|]; [|by left].
  destruct (String.eqb raw ""); [by left|].
  destruct (JSON_parse raw) as [[p|]|]; cbn [fst snd];
    try destruct (expired _ _); cbn [fst snd]; auto.
Qed.

(** X2: absence is final until the next write: once a read of a key has
    answered absent, every further read of it answers absent, whatever
    the clock says. *)
Theorem absent_stays_absent (key : string) (t1 t2 : Z) (st : Store) :
  (getItemWithTTL (T:=T) key t1 st).1 = None ->
  (getItemWithTTL (T:=T) key t2 (getItemWithTTL (T:=T) key t1 st).2).1 = None.
Proof.
  unfold getItemWithTTL at 1 3. unfold getItem, AsyncStorage.removeItem.
  destruct (st !! key) as [raw|] eqn:Hraw; cbn [fst snd].
  2: { intros _. unfold getItemWithTTL, getItem. by rewrite Hraw. }
  destruct (String.eqb raw "") eqn:Hempty; cbn [fst snd].
  { intros _. unfold getItemWithTTL, getItem. by rewrite Hraw, Hempty. }
  assert (Hgone : (getItemWithTTL (T:=T) key t2 (delete key st)).1 = None).
  { unfold getItemWithTTL, getItem. by rewrite lookup_delete_eq. }
  destruct (JSON_parse raw) as [[p|]|] eqn:Hparse; try done.
  destruct (expired (expiresAt p) t1); cbn [fst snd]; [done|].
  intros Hvalue. unfold getItemWithTTL, getItem.
  rewrite Hraw, Hempty, Hparse.
  by destruct (expired (expiresAt p) t2).
Qed.

(** X3: the three operations on one key leave every other key as it is,
    and a read never writes: it keeps the entry as stored or removes it. *)
Theorem ttl_operations_frame
    (key k : string) (v : T) (ttlMs : option Z) (now : Z) (st : Store) :
  (k <> key ->
   setItemWithTTL key v ttlMs now st !! k = st !! k
   /\ (getItemWithTTL (T:=T) key now st).2 !! k = st !! k
   /\ Storage.removeItem key st !! k = st !! k)
  /\ ((getItemWithTTL (T:=T) key now st).2 !! key = st !! key
      \/ (getItemWithTTL (T:=T) key now st).2 !! key = None)
  /\ Storage.removeItem key st !! key = None.
Proof.
  split; [|split].
  - intros Hk. split; [|split].
    + unfold setItemWithTTL, setItem. by rewrite lookup_insert_ne.
    + by apply getItemWithTTL_other_keys.
    + unfold Storage.removeItem, AsyncStorage.removeItem.
      by rewrite lookup_delete_ne.
  - destruct (getItemWithTTL_store key now st) as [->|[_ ->]]; [by left|].
    right. apply lookup_delete_eq.
  - apply lookup_delete_eq.
Qed.

End TTLCacheMore.

(** ** The hook: restarts, decoding, clearing *)

Section KeyHookMore.
Import AsyncStorage Storage Crypto EncryptionKey History.
Context `{!Json (StoredValue string)} `{!Base64}.

Lemma setKey_persisted (v : string) (t0 : Z) (k : State) (st : Store) :
  (setKey v true t0 k st).2 !! STORAGE_KEY = Some (JSON_stringify (key_entry v t0)).
Proof. apply lookup_insert_eq. Qed.

(** X4: a key set with [setKey] is found again by the hook of a freshly
    started process until [TTL_MS] after it was set; later the fresh
    hook finds no key and removes the entry.  A key set with
    [persist = false] is never found by a fresh hook. *)
Theorem key_found_after_restart_within_ttl
    (v : string) (t0 t : Z) (k : State) (st : Store) :
  round_trips (key_entry v t0) -> 0 <= t0 ->
  (t <= t0 + TTL_MS ->
   hydrate t initial (setKey v true t0 k st).2
   = ({| rawKey := Some (encodeKey v); isHydrated := true |},
      (setKey v true t0 k st).2))
  /\ (t0 + TTL_MS < t ->
      hydrate t initial (setKey v true t0 k st).2
      = ({| rawKey := None; isHydrated := true |},
         delete STORAGE_KEY (setKey v true t0 k st).2))
  /\ (st !! STORAGE_KEY = None ->
      hydrate t initial (setKey v false t0 k st).2
      = ({| rawKey := None; isHydrated := true |}, st)).
Proof.
  intros [Hne Hrt] Ht0. unfold hydrate.
  rewrite (getItemWithTTL_parsed _ _ _ _ _ (setKey_persisted v t0 k st) Hne Hrt).
  cbn [key_entry expiresAt value].
  split; [|split].
  - intros Hle. by rewrite (expired_false_le _ _ Hle).
  - intros Hlt.
    assert (expired (Some (t0 + TTL_MS)) t = true) as ->; [|done].
    apply expired_iff; [unfold TTL_MS; lia | done].
  - intros Hnone. unfold setKey. cbn [snd].
    unfold getItemWithTTL, getItem. by rewrite Hnone.
Qed.

(** X5: what the hook hands out as [key] is the value that was set,
    decoded from the mirror; when the encoded form is empty the hook
    hands out no key although the mirror is set. *)
Theorem decodedKey_after_setKey
    (v : string) (persist : bool) (now : Z) (k : State) (st : Store) :
  encodedKey (setKey v persist now k st).1 = Some (encodeKey v)
  /\ (encodeKey v <> "" -> decodeKey (encodeKey v) = Ret v ->
      decodedKey (setKey v persist now k st).1 = Ret (Some v))
  /\ (encodeKey v = "" ->
      decodedKey (setKey v persist now k st).1 = Ret None).
Proof.
  assert (Hraw : rawKey (setKey v persist now k st).1 = Some (encodeKey v))
    by (unfold setKey; by destruct persist).
  split; [exact Hraw|]. unfold decodedKey. rewrite Hraw. split.
  - intros Hne Hdec. by rewrite (nonempty_eqb _ Hne), Hdec.
  - by intros ->.
Qed.

(** X6: after [clearKey] the hook has no key, a freshly started hook
    finds none at any time, and clearing again changes nothing. *)
Theorem clearKey_forgets (t : Z) (k : State) (st : Store) :
  rawKey (clearKey k st).1 = None
  /\ decodedKey (clearKey k st).1 = Ret None
  /\ hydrate t initial (clearKey k st).2
     = ({| rawKey := None; isHydrated := true |}, (clearKey k st).2)
  /\ clearKey (clearKey k st).1 (clearKey k st).2 = clearKey k st.
Proof.
  split_conj; try done.
  - unfold hydrate, getItemWithTTL, getItem, clearKey, Storage.removeItem,
      AsyncStorage.removeItem. cbn [snd]. by rewrite lookup_delete_eq.
  - unfold clearKey, Storage.removeItem, AsyncStorage.removeItem. cbn [fst snd].
    f_equal. apply delete_delete_eq.
Qed.

End KeyHookMore.

(** ** The axios instance *)

Section Client.
Import Api Lifecycle.

(** X7: the Authorization header follows the last call of
    [setAuthToken]: it is "Bearer " and the token for a non-empty token,
    absent for [null] and for the empty token; requests already sent
    are not touched. *)
Theorem setAuthToken_last_wins (t1 t2 : option string) (c : Client) :
  setAuthToken t2 (setAuthToken t1 c) = setAuthToken t2 c
  /\ authorization (setAuthToken t2 c)
     = (fun t => "Bearer " +:+ t) <$> effective t2
  /\ sent (setAuthToken t2 c) = sent c.
Proof.
  unfold setAuthToken, effective.
  destruct t1 as [s1|], t2 as [s2|];
    try destruct (String.eqb s1 ""); try destruct (String.eqb s2 ""); done.
Qed.

End Client.

(** ** The session across restarts *)

Section SessionMore.
Import AsyncStorage Storage AuthContext App AuthProvider Lifecycle.
Context `{!Json AuthUser}.

Lemma multiSet_session (t u f : string) (st : Store) :
  multiSet [(AUTH_TOKEN_KEY, t); (AUTH_USER_KEY, u); (AUTH_KEY_FLAG, f)] st
  = <[AUTH_KEY_FLAG := f]> (<[AUTH_USER_KEY := u]> (<[AUTH_TOKEN_KEY := t]> st)).
Proof. reflexivity. Qed.

Lemma multiSet_session_lookup (t u f : string) (st : Store) :
  multiSet [(AUTH_TOKEN_KEY, t); (AUTH_USER_KEY, u); (AUTH_KEY_FLAG, f)] st
    !! AUTH_TOKEN_KEY = Some t
  /\ multiSet [(AUTH_TOKEN_KEY, t); (AUTH_USER_KEY, u); (AUTH_KEY_FLAG, f)] st
       !! AUTH_USER_KEY = Some u
  /\ multiSet [(AUTH_TOKEN_KEY, t); (AUTH_USER_KEY, u); (AUTH_KEY_FLAG, f)] st
       !! AUTH_KEY_FLAG = Some f.
Proof.
  destruct session_keys_distinct as (Htu & Htf & Huf & _).
  rewrite multiSet_session. split_conj.
  - by rewrite lookup_insert_ne, lookup_insert_ne, lookup_insert_eq.
  - by rewrite lookup_insert_ne, lookup_insert_eq.
  - by rewrite lookup_insert_eq.
Qed.

Lemma effective_truthy (o : option string) :
  truthy_string o = match effective o with Some _ => true | None => false end.
Proof. destruct o as [s|]; [|done]. cbn. by destruct (String.eqb s ""). Qed.

(** What the mount effect leaves in each part of the world. *)
Lemma hydrate_parts (w : World) :
  token (auth (hydrate w))
    = match effective (storage w !! AUTH_TOKEN_KEY) with
      | Some t => Some t
      | None => token (auth w)
      end
  /\ Api.authorization (client (hydrate w))
     = match effective (storage w !! AUTH_TOKEN_KEY) with
       | Some t => Some ("Bearer " +:+ t)
       | None => Api.authorization (client w)
       end
  /\ encryptionKeyConfigured (auth (hydrate w))
     = match effective (storage w !! AUTH_KEY_FLAG) with
       | Some v => String.eqb v "true"
       | None => encryptionKeyConfigured (auth w)
       end
  /\ user (auth (hydrate w))
     = match effective (storage w !! AUTH_USER_KEY) with
       | Some json =>
           match JSON_parse json with
           | Ret u => u
           | Throw _ => user (auth w)
           end
       | None => user (auth w)
       end
  /\ isHydrated (auth (hydrate w)) = true
  /\ Api.sent (client (hydrate w)) = Api.sent (client w)
  /\ (forall k, k <> AUTH_USER_KEY -> storage (hydrate w) !! k = storage w !! k)
  /\ timers (hydrate w) = timers w
  /\ passwords (hydrate w) = passwords w
  /\ notes (hydrate w) = notes w.
Proof.
  unfold hydrate, multiGet, effective, truthy_string. cbn [map snd].
  destruct (storage w !! AUTH_TOKEN_KEY) as [t|];
    [destruct (String.eqb t "") eqn:Et|];
    (destruct (storage w !! AUTH_USER_KEY) as [u|];
       [destruct (String.eqb u ""); [|destruct (JSON_parse u) as [pu|]]|]);
    (destruct (storage w !! AUTH_KEY_FLAG) as [f|];
       [destruct (String.eqb f "")|]);
    cbn [negb]; project; rewrite ?Et; split_conj; try done;
    intros k Hk; unfold AsyncStorage.removeItem; by rewrite lookup_delete_ne.
Qed.

Lemma relaunch_parts (w : World) :
  storage (relaunch w) = storage w
  /\ auth (relaunch w) = AuthContext.initial
  /\ Api.authorization (client (relaunch w)) = None
  /\ Api.sent (client (relaunch w)) = []
  /\ timers (relaunch w) = Timers.initial
  /\ passwords (relaunch w) = PasswordsState.initial
  /\ notes (relaunch w) = NotesState.initial.
Proof. unfold relaunch, App.initial. project. by split_conj. Qed.

(** A freshly started process after hydration, read off the store. *)
Lemma hydrate_relaunch (w : World) :
  token (auth (hydrate (relaunch w))) = effective (storage w !! AUTH_TOKEN_KEY)
  /\ Api.authorization (client (hydrate (relaunch w)))
     = (fun t => "Bearer " +:+ t) <$> effective (storage w !! AUTH_TOKEN_KEY)
  /\ encryptionKeyConfigured (auth (hydrate (relaunch w)))
     = match effective (storage w !! AUTH_KEY_FLAG) with
       | Some v => String.eqb v "true"
       | None => false
       end
  /\ user (auth (hydrate (relaunch w)))
     = match effective (storage w !! AUTH_USER_KEY) with
       | Some json =>
           match JSON_parse json with
           | Ret u => u
           | Throw _ => None
           end
       | None => None
       end
  /\ isHydrated (auth (hydrate (relaunch w))) = true
  /\ Api.sent (client (hydrate (relaunch w))) = [].
Proof.
  destruct (hydrate_parts (relaunch w)) as (Ht & Ha & Hf & Hu & Hh & Hs & _).
  destruct (relaunch_parts w) as (Rs & Rauth & Rh & Rsent & _).
  rewrite Rs, Rauth, ?Rh, ?Rsent in *.
  rewrite Ht, Ha, Hf, Hu. split_conj; try done;
    by destruct (effective _).
Qed.

(** X8: a session written by [completeLogin] is the session a freshly
    started process hydrates, without a request, when the token is not
    empty; with an empty token the restarted process is not
    authenticated. *)
Theorem login_survives_restart (p : AuthSessionPayload) (w : World) :
  History.round_trips (payload_user p) ->
  let w' := hydrate (relaunch (completeLogin p w)) in
  user (auth w') = Some (payload_user p)
  /\ encryptionKeyConfigured (auth w')
     = default false (payload_encryptionKeyConfigured p)
  /\ isHydrated (auth w') = true
  /\ Api.sent (client w') = []
  /\ (payload_token p <> "" ->
      token (auth w') = Some (payload_token p)
      /\ isAuthenticated (auth w') = true
      /\ Api.authorization (client w') = Some ("Bearer " +:+ payload_token p))
  /\ (payload_token p = "" ->
      token (auth w') = None
      /\ isAuthenticated (auth w') = false
      /\ Api.authorization (client w') = None).
Proof.
  intros [Hne Hrt] w'. subst w'.
  destruct (hydrate_relaunch (completeLogin p w)) as (Ht & Ha & Hf & Hu & Hh & Hs).
  assert (Hst : storage (completeLogin p w)
                = multiSet [(AUTH_TOKEN_KEY, payload_token p);
                            (AUTH_USER_KEY, JSON_stringify (payload_user p));
                            (AUTH_KEY_FLAG,
                             if default false (payload_encryptionKeyConfigured p)
                             then "true" else "false")] (storage w)).
  { unfold completeLogin. by project. }
  destruct (multiSet_session_lookup (payload_token p)
              (JSON_stringify (payload_user p))
              (if default false (payload_encryptionKeyConfigured p)
               then "true" else "false") (storage w)) as (Lt & Lu & Lf).
  rewrite Hst, Lt in Ht. rewrite Hst, Lt in Ha.
  rewrite Hst, Lf in Hf. rewrite Hst, Lu in Hu.
  unfold isAuthenticated. rewrite Ht, Ha, Hf, Hu, Hh, Hs.
  unfold effective. rewrite (nonempty_eqb _ Hne), Hrt.
  split_conj; try done.
  - by destruct (default false (payload_encryptionKeyConfigured p)).
  - intros Hp. rewrite (nonempty_eqb _ Hp). cbn [fmap option_fmap option_map].
    split_conj; try done. cbn [truthy_string]. by rewrite (nonempty_eqb _ Hp).
  - by intros ->.
Qed.

(** X9: after [signOut], whatever the state before, a freshly started
    process hydrates to a signed-out session: no token, no user, flag
    off, no Authorization header, hydration complete. *)
Theorem signOut_survives_restart (w : World) :
  let w' := hydrate (relaunch (signOut w)) in
  token (auth w') = None
  /\ user (auth w') = None
  /\ encryptionKeyConfigured (auth w') = false
  /\ isHydrated (auth w') = true
  /\ isAuthenticated (auth w') = false
  /\ Api.authorization (client w') = None
  /\ Api.sent (client w') = [].
Proof.
  intros w'. subst w'.
  destruct (hydrate_relaunch (signOut w)) as (Ht & Ha & Hf & Hu & Hh & Hs).
  destruct (signOut_cleared w) as (_ & _ & _ & _ & St & Su & Sf).
  rewrite St in Ht, Ha. rewrite Sf in Hf. rewrite Su in Hu.
  unfold isAuthenticated. rewrite Ht, Ha, Hf, Hu, Hh, Hs. by split_conj.
Qed.

Lemma setAuthToken_authorization (t : option string) (c : Api.Client) :
  Api.authorization (Api.setAuthToken t c)
  = (fun s => "Bearer " +:+ s) <$> effective t.
Proof.
  unfold Api.setAuthToken, effective.
  destruct t as [s|]; [|done]. by destruct (String.eqb s "").
Qed.

(** X10: logins and sign-out compose as overwrites: a second
    [completeLogin] leaves no trace of the first, and [signOut] after a
    login leaves the world as [signOut] alone would. *)
Theorem login_signOut_overwrite (p1 p2 : AuthSessionPayload) (w : World) :
  completeLogin p2 (completeLogin p1 w) = completeLogin p2 w
  /\ signOut (completeLogin p1 w) = signOut w.
Proof.
  destruct session_keys_distinct as (Htu & Htf & Huf & _).
  split; apply world_eq; unfold completeLogin, signOut; project; try done;
    try (by destruct (String.eqb (payload_token p1) "");
            destruct (String.eqb (payload_token p2) "")).
  - rewrite !multiSet_session. apply map_eq. intros k.
    rewrite !lookup_insert. by repeat case_decide.
  - apply map_eq. intros k. rewrite !multiRemove_session_lookup.
    case_decide as Hk; [done|].
    rewrite multiSet_session, !lookup_insert_ne; [done|..];
      intros <-; apply Hk; auto.
Qed.

(** X11: a failed [refreshUser] passes the error on and never
    overwrites the user; a failure that is not a 401 leaves session and
    store as they were, and a 401 tears the session down. *)
Theorem refreshUser_failure (e : AxiosError) (w : World) :
  truthy_string (token (auth w)) = true ->
  let r := refreshUser registered (Api.Rejected e) w in
  r.2 = Throw (Axios e)
  /\ (status_is 401 (Axios e) = false ->
      auth r.1 = auth w /\ storage r.1 = storage w
      /\ Api.authorization (client r.1) = Api.authorization (client w))
  /\ (status_is 401 (Axios e) = true ->
      token (auth r.1) = None /\ user (auth r.1) = None
      /\ Api.authorization (client r.1) = None
      /\ storage r.1 !! AUTH_TOKEN_KEY = None
      /\ storage r.1 !! AUTH_USER_KEY = None
      /\ storage r.1 !! AUTH_KEY_FLAG = None).
Proof.
  intros Htok r. subst r. unfold refreshUser. rewrite Htok. cbn [negb].
  rewrite request_rejected. cbn [fst snd]. split; [done|]. split.
  - intros ->. by project.
  - intros ->.
    destruct (signOut_cleared
                (with_client
                   (Api.issue {| Api.method := "GET"; Api.url := "/user/fetch" |}) w))
      as (Ht & Hu & _ & Ha & St & Su & Sf).
    by split_conj.
Qed.

Lemma effective_idemp (o : option string) : effective (effective o) = effective o.
Proof.
  destruct o as [s|]; [|done]. cbn.
  destruct (String.eqb s "") eqn:E; [done|]. cbn. by rewrite E.
Qed.

(** Coherence looks at five places only. *)
Lemma coherent_ext (w w' : World) :
  storage w' !! AUTH_TOKEN_KEY = storage w !! AUTH_TOKEN_KEY ->
  storage w' !! AUTH_KEY_FLAG = storage w !! AUTH_KEY_FLAG ->
  token (auth w') = token (auth w) ->
  encryptionKeyConfigured (auth w') = encryptionKeyConfigured (auth w) ->
  Api.authorization (client w') = Api.authorization (client w) ->
  session_coherent w -> session_coherent w'.
Proof.
  unfold session_coherent. by intros -> -> -> -> ->.
Qed.

Lemma coherent_signOut (w : World) : session_coherent (signOut w).
Proof.
  destruct (signOut_cleared w) as (Ht & _ & Hk & Ha & St & _ & Sf).
  unfold session_coherent. rewrite Ht, Hk, Ha, St, Sf. split_conj; try done.
  by left.
Qed.

Lemma coherent_step (op : SessionOp) (w : World) :
  session_coherent w -> session_coherent (session_step w op).
Proof.
  destruct session_keys_distinct as (Htu & Htf & Huf & _).
  intros Hco. destruct op as [p| |reply|v|e|]; cbn [session_step].
  - unfold session_coherent, completeLogin. project.
    destruct (multiSet_session_lookup (payload_token p)
                (JSON_stringify (payload_user p))
                (if default false (payload_encryptionKeyConfigured p)
                 then "true" else "false") (storage w)) as (Lt & _ & Lf).
    rewrite Lt, Lf. split_conj; try done.
    + unfold effective. by destruct (String.eqb (payload_token p) "").
    + by right.
  - apply coherent_signOut.
  - unfold refreshUser.
    destruct (negb (truthy_string (token (auth w)))); [done|].
    destruct reply as [data|e].
    + unfold request. cbn [fst]. apply (coherent_ext w); try done;
        project; unfold setItem; by rewrite lookup_insert_ne.
    + rewrite request_rejected. cbn [fst].
      destruct (status_is 401 (Axios e)); [apply coherent_signOut|].
      by apply (coherent_ext w).
  - destruct Hco as (Ht & Ha & _).
    unfold session_coherent, setEncryptionKeyConfigured. project.
    unfold setItem. rewrite lookup_insert_eq, lookup_insert_ne by done.
    split_conj; try done. by right.
  - unfold Api.responseError, registered, Api.onUnauthorized, clearSession.
    cbn [Api.unauthorizedHandler].
    destruct (status_is 401 (Axios e)); cbn [fst]; [apply coherent_signOut|done].
  - destruct Hco as (_ & _ & Hflag).
    destruct (hydrate_relaunch w) as (Ht & Ha & Hf & _).
    destruct (hydrate_parts (relaunch w)) as (_ & _ & _ & _ & _ & _ & Hst & _).
    destruct (relaunch_parts w) as (Rs & _).
    unfold session_coherent.
    rewrite (Hst AUTH_TOKEN_KEY), (Hst AUTH_KEY_FLAG), Rs, Ht, Ha, Hf by done.
    split_conj; [by rewrite effective_idemp | by rewrite effective_idemp |].
    destruct Hflag as [[-> _]| ->]; [by left|right].
    by destruct (encryptionKeyConfigured (auth w)).
Qed.

(** X12: along every run of logins, sign-outs, refreshes, flag
    updates, error responses and restarts, memory, store and outbound
    header agree: the stored token and the token in memory are the same
    non-empty token or both count as none, the Authorization header is
    "Bearer " and that token or absent with it, and the stored flag is
    the flag in memory. *)
Theorem session_stays_coherent (ops : list SessionOp) :
  session_coherent (session_run ops App.initial).
Proof.
  induction ops as [|op ops IH] using rev_ind.
  - unfold session_run. cbn [fold_left].
    unfold session_coherent, App.initial, AuthContext.initial. project.
    rewrite !lookup_empty. split_conj; try done. by left.
  - unfold session_run. rewrite fold_left_app. by apply coherent_step.
Qed.

End SessionMore.

(** ** The PIN prompt *)

Section Trimming.
Import Text.
Local Open Scope string_scope.

Lemma trimStart_clean (s : string) : starts_clean (trimStart s).
Proof.
  induction s as [|c s IH]; [done|]. cbn [trimStart].
  by destruct (is_space c) eqn:E.
Qed.

Lemma trimStart_id (s : string) : starts_clean s -> trimStart s = s.
Proof. destruct s as [|c s]; [done|]. cbn. by intros ->. Qed.

Lemma trimEnd_clean (s : string) : starts_clean s -> starts_clean (trimEnd s).
Proof.
  destruct s as [|c s]; [done|]. cbn [starts_clean trimEnd]. intros Hc.
  destruct (trimEnd s); by rewrite ?Hc.
Qed.

Lemma trimEnd_idemp (s : string) : trimEnd (trimEnd s) = trimEnd s.
Proof.
  induction s as [|c s IH]; [done|]. cbn [trimEnd].
  destruct (trimEnd s) as [|d r] eqn:E.
  - destruct (is_space c) eqn:Hc; [done|]. cbn [trimEnd]. by rewrite Hc.
  - change (trimEnd (String c (String d r))) with
      (match trimEnd (String d r) with
       | EmptyString => if is_space c then "" else String c ""
       | String d' r' => String c (String d' r')
       end).
    by rewrite IH.
Qed.

Lemma trim_idemp (s : string) : trim (trim s) = trim s.
Proof.
  unfold trim.
  rewrite (trimStart_id (trimEnd (trimStart s)))
    by apply trimEnd_clean, trimStart_clean.
  apply trimEnd_idemp.
Qed.

End Trimming.

Section KeyPromptProperties.
Import AsyncStorage Storage Crypto App AuthContext AuthProvider KeyPrompt History.
Context `{!Json (StoredValue string)} `{!Base64}.

Lemma handleKeySubmit_blank (m : Api.Registry World) (v : string)
    (reply : Api.Reply unit) (now : Z) (w : World) :
  Text.trim v = "" -> handleKeySubmit m v reply now w = w.
Proof. intros Hb. unfold handleKeySubmit. by rewrite Hb. Qed.

Lemma handleKeySubmit_rejected (v : string) (e : AxiosError) (now : Z) (w : World) :
  Text.trim v <> "" ->
  handleKeySubmit registered v (Api.Rejected e) now w
  = (request (D:=unit) registered verify (Api.Rejected e) w).1.
Proof.
  intros Hv. unfold handleKeySubmit. rewrite (nonempty_eqb _ Hv).
  by rewrite request_rejected.
Qed.

(** X13: [handleKeySubmit] stores a PIN only once the backend has
    verified it.  A blank PIN changes nothing and sends nothing; a
    rejected PIN leaves the cached key and the prompt as they were; a
    verified PIN is cached trimmed and encoded, in the mirror and under
    the TTL, the key-configured flag is set in memory and in the store,
    and the prompt closes. *)
Theorem handleKeySubmit_stores_verified_pin
    (v : string) (reply : Api.Reply unit) (now : Z) (w : World) :
  (Text.trim v = "" -> handleKeySubmit registered v reply now w = w)
  /\ (forall e,
        Text.trim v <> "" -> reply = Api.Rejected e ->
        let w' := handleKeySubmit registered v reply now w in
        passwords w' = passwords w
        /\ storage w' !! EncryptionKey.STORAGE_KEY
           = storage w !! EncryptionKey.STORAGE_KEY)
  /\ (forall d,
        Text.trim v <> "" -> reply = Api.Fulfilled d ->
        let w' := handleKeySubmit registered v reply now w in
        EncryptionKey.rawKey (PasswordsState.key (passwords w'))
        = Some (encodeKey (Text.trim v))
        /\ storage w' !! EncryptionKey.STORAGE_KEY
           = Some (JSON_stringify (key_entry (Text.trim v) now))
        /\ encryptionKeyConfigured (auth w') = true
        /\ storage w' !! AUTH_KEY_FLAG = Some "true"
        /\ PasswordsState.promptKey (passwords w') = false
        /\ Api.sent (client w') = Api.sent (client w) ++ [verify]).
Proof.
  destruct session_keys_distinct as (_ & _ & _ & _ & _ & Hfk).
  split; [apply handleKeySubmit_blank|]. split.
  - intros e Hv -> w'. subst w'. rewrite handleKeySubmit_rejected by done.
    destruct (request_keeps_cached_key (D:=unit) verify (Api.Rejected e) w)
      as (Hp & _ & _ & Hs).
    by split.
  - intros d Hv -> w'. subst w'. unfold handleKeySubmit, request.
    rewrite (nonempty_eqb _ Hv).
    unfold setEncryptionKeyConfigured, PasswordsScreen.setKey, EncryptionKey.setKey.
    project. unfold setItem, setItemWithTTL, setItem, key_entry.
    split_conj; try done.
    + rewrite lookup_insert_ne by done. apply lookup_insert_eq.
    + apply lookup_insert_eq.
Qed.

(** X14: the modal hands the trimmed PIN to [handleKeySubmit], which
    trims again to the same text, so submitting through the modal
    stores what submitting the raw text stores.  A blank field does
    nothing; otherwise the field is emptied and the prompt closes, also
    when the PIN was rejected and no key was stored. *)
Theorem modal_submit_closes_prompt
    (reply : Api.Reply unit) (now : Z) (md : Modal) (w : World) :
  (Text.trim (key md) = "" -> handleSubmit registered reply now md w = (md, w))
  /\ (Text.trim (key md) <> "" ->
      let r := handleSubmit registered reply now md w in
      r.1 = {| key := ""; isSubmitting := false |}
      /\ r.2 = with_passwords (PasswordsState.setPromptKey false)
                 (handleKeySubmit registered (key md) reply now w)
      /\ PasswordsState.promptKey (passwords r.2) = false
      /\ (forall e,
            reply = Api.Rejected e ->
            PasswordsState.key (passwords r.2) = PasswordsState.key (passwords w)
            /\ storage r.2 !! EncryptionKey.STORAGE_KEY
               = storage w !! EncryptionKey.STORAGE_KEY)).
Proof.
  split.
  - intros Hb. unfold handleSubmit. by rewrite Hb.
  - intros Hv r. subst r. unfold handleSubmit. rewrite (nonempty_eqb _ Hv).
    cbn [fst snd].
    assert (Hsame : handleKeySubmit registered (Text.trim (key md)) reply now w
                    = handleKeySubmit registered (key md) reply now w).
    { unfold handleKeySubmit. by rewrite trim_idemp. }
    rewrite Hsame. split_conj; try done.
    intros e ->. rewrite handleKeySubmit_rejected by done.
    destruct (request_keeps_cached_key (D:=unit) verify (Api.Rejected e) w)
      as (Hp & _ & _ & Hs).
    project. by rewrite Hp, Hs.
Qed.

End KeyPromptProperties.

(** ** Revealed passwords: hiding and cleanup *)

Section RevealMore.
Import AsyncStorage Storage App AuthProvider PasswordsState PasswordsScreen History.
Context `{!Json (StoredValue string)} `{!Base64}.

Lemma handleReveal_fulfilled (id secret : string) (data : RevealData) (now : Z)
    (w : World) :
  truthy_string (EncryptionKey.encodedKey (key (passwords w))) = true ->
  match data with Text s => Crypto.decodeKey s | WithPassword p => Crypto.decodeKey p end
  = Ret secret ->
  handleReveal registered id (Api.Fulfilled data) now w
  = reveal id secret now
      (with_client (Api.issue {| Api.method := "POST"; Api.url := "/vault/" +:+ id |}) w).
Proof.
  intros Hkey Hdec. unfold handleReveal. rewrite Hkey. cbn [negb request].
  by rewrite Hdec.
Qed.

(** X15: without a cached key [handleReveal] only opens the PIN prompt.
    With one, a decrypted answer is shown for its record and a timer
    due 5000 ms later is registered for it; when that timer runs the
    password is hidden again and the timer is gone.  The cached key and
    the store are not touched. *)
Theorem handleReveal_shows_then_hides
    (id secret : string) (data : RevealData) (now : Z) (w : World) :
  (truthy_string (EncryptionKey.encodedKey (key (passwords w))) = false ->
   forall reply,
     handleReveal registered id reply now w = with_passwords (setPromptKey true) w)
  /\ (truthy_string (EncryptionKey.encodedKey (key (passwords w))) = true ->
      match data with
      | Text s => Crypto.decodeKey s
      | WithPassword p => Crypto.decodeKey p
      end = Ret secret ->
      let w' := handleReveal registered id (Api.Fulfilled data) now w in
      let h := Timers.next (timers w) in
      revealed id w' = Some secret
      /\ hideTimers (passwords w') !! id = Some h
      /\ Timers.pending (timers w') !! h
         = Some {| Timers.target := id; Timers.due := now + 5000 |}
      /\ revealed id (fire h w') = None
      /\ Timers.pending (timers (fire h w')) !! h = None
      /\ key (passwords w') = key (passwords w)
      /\ storage w' = storage w).
Proof.
  split.
  - intros Hkey reply. unfold handleReveal. by rewrite Hkey.
  - intros Hkey Hdec w' h. subst w' h.
    rewrite (handleReveal_fulfilled id secret data now w Hkey Hdec).
    set (w1 := with_client _ w).
    assert (Hp : Timers.pending (timers (reveal id secret now w1))
                   !! Timers.next (timers w)
                 = Some {| Timers.target := id; Timers.due := now + 5000 |}).
    { rewrite reveal_pending. apply lookup_insert_eq. }
    split_conj.
    + unfold revealed. rewrite reveal_revealed. apply lookup_insert_eq.
    + rewrite reveal_hideTimers. apply lookup_insert_eq.
    + done.
    + unfold revealed, fire. rewrite Hp. project. apply lookup_delete_eq.
    + unfold fire. rewrite Hp. project. apply lookup_delete_eq.
    + subst w1. unfold reveal. simpl.
      by destruct (hideTimers (passwords w) !! id).
    + subst w1. unfold reveal. simpl.
      by destruct (hideTimers (passwords w) !! id).
Qed.

(** X16: in every state the screen can reach, a pending timer is the
    one its record's slot names; when it runs it hides that record's
    password and nothing else, it leaves the other timers pending, and
    no timer for that record remains. *)
Theorem fire_hides_only_its_record
    (es : list ScreenEvent) (h : positive) (t : Timers.Timer) :
  let w := screen_run es App.initial in
  Timers.pending (timers w) !! h = Some t ->
  let w' := fire h w in
  hideTimers (passwords w) !! Timers.target t = Some h
  /\ revealed (Timers.target t) w' = None
  /\ (forall id, id <> Timers.target t -> revealed id w' = revealed id w)
  /\ (forall h', h' <> h ->
        Timers.pending (timers w') !! h' = Timers.pending (timers w) !! h')
  /\ (forall h' t',
        Timers.pending (timers w') !! h' = Some t' ->
        Timers.target t' <> Timers.target t)
  /\ key (passwords w') = key (passwords w)
  /\ storage w' = storage w.
Proof.
  intros w Hh w'.
  assert (Hinv : timers_tracked w) by apply tracked_run, tracked_initial.
  destruct (Hinv h t Hh) as [Hslot _].
  subst w'. unfold fire, revealed. rewrite Hh. project.
  split_conj; try done.
  - apply lookup_delete_eq.
  - intros id Hid. by rewrite lookup_delete_ne.
  - intros h' Hh'. by rewrite lookup_delete_ne.
  - intros h' t' Hh' Heq.
    apply lookup_delete_Some in Hh' as [Hne Hh'].
    destruct (Hinv h' t' Hh') as [Hslot' _].
    rewrite Heq in Hslot'. congruence.
Qed.

Lemma clearTimeout_all (hs : list positive) (rt : Timers.Runtime)
    (h : positive) (t : Timers.Timer) :
  Timers.pending (fold_left (fun acc h => Timers.clearTimeout h acc) hs rt) !! h
  = Some t ->
  Timers.pending rt !! h = Some t /\ ~ In h hs.
Proof.
  revert rt. induction hs as [|h0 hs IH]; intros rt; cbn [fold_left].
  - intros Hh. split; [done|]. by intros [].
  - intros Hh. apply IH in Hh as [Hh Hnot]. cbn in Hh.
    apply lookup_delete_Some in Hh as [Hne Hh].
    split; [done|]. intros [->|Hin]; [done|by apply Hnot].
Qed.

Lemma clearTimeout_all_next (hs : list positive) (rt : Timers.Runtime) :
  Timers.next (fold_left (fun acc h => Timers.clearTimeout h acc) hs rt)
  = Timers.next rt.
Proof.
  revert rt. induction hs as [|h0 hs IH]; intros rt; cbn [fold_left]; [done|].
  by rewrite IH.
Qed.

(** X17: in every state the screen can reach, the cleanup that runs on
    unmount cancels every pending timer: none is pending right after
    it, and running a handle handed out before does nothing; what the
    screen holds and the store are left as they are.  The cleanup does
    not stop a reveal that is still in flight: when its answer arrives
    after the unmount it registers a new timer, which is then the only
    one pending. *)
Theorem unmount_clears_every_timer
    (es : list ScreenEvent) (id secret : string) (now : Z) :
  let w := screen_run es App.initial in
  let w' := PasswordsCleanup.unmount w in
  Timers.pending (timers w') = ∅
  /\ (forall h, fire h w' = w')
  /\ passwords w' = passwords w
  /\ storage w' = storage w
  /\ Timers.pending (timers (reveal id secret now w'))
     = {[ Timers.next (timers w) :=
            {| Timers.target := id; Timers.due := now + HIDE_DELAY |} ]}.
Proof.
  intros w w'.
  assert (Hinv : timers_tracked w) by apply tracked_run, tracked_initial.
  assert (Hempty : Timers.pending (timers w') = ∅).
  { apply map_empty. intros h.
    destruct (Timers.pending (timers w') !! h) as [t|] eqn:Hh; [|done].
    exfalso. subst w'. unfold PasswordsCleanup.unmount in Hh. project.
    apply clearTimeout_all in Hh as [Hh Hnot].
    destruct (Hinv h t Hh) as [Hslot _].
    apply Hnot. apply (in_map snd _ (Timers.target t, h)).
    apply list_elem_of_In. by apply elem_of_map_to_list. }
  assert (Hnext : Timers.next (timers w') = Timers.next (timers w)).
  { subst w'. unfold PasswordsCleanup.unmount. project.
    apply clearTimeout_all_next. }
  split_conj; try done.
  - intros h. unfold fire. by rewrite Hempty, lookup_empty.
  - rewrite reveal_pending, Hempty, Hnext.
    destruct (hideTimers (passwords w') !! id);
      by rewrite ?delete_empty, insert_empty.
Qed.

End RevealMore.

(** ** The two screens share the key through the store only *)

Section SharedKey.
Import AsyncStorage Storage Crypto App AuthContext AuthProvider KeyPrompt History.
Context `{!Json (StoredValue string)} `{!Base64}.

Lemma handleKeySubmit_fulfilled (v : string) (d : unit) (now : Z) (w : World) :
  Text.trim v <> "" ->
  handleKeySubmit registered v (Api.Fulfilled d) now w
  = with_passwords (PasswordsState.setPromptKey false)
      (setEncryptionKeyConfigured true
         (PasswordsScreen.setKey (Text.trim v) true now
            (with_client (Api.issue verify) w))).
Proof. intros Hv. unfold handleKeySubmit. by rewrite (nonempty_eqb _ Hv). Qed.

Lemma handleKeySubmitNotes_fulfilled (v : string) (d : unit) (now : Z) (w : World) :
  Text.trim v <> "" ->
  handleKeySubmitNotes registered v (Api.Fulfilled d) now w
  = with_notes (NotesState.setPromptKey false)
      (setEncryptionKeyConfigured true
         (NotesScreen.setKey (Text.trim v) true now
            (with_client (Api.issue verify) w))).
Proof. intros Hv. unfold handleKeySubmitNotes. by rewrite (nonempty_eqb _ Hv). Qed.

(** X18: each screen has its own instance of the hook, and the two meet
    in the store only.  A PIN verified on one screen does not change the
    other screen's mirror, and the other screen finds it when its hook
    hydrates within [TTL_MS]; when the passwords screen clears the key,
    the notes screen keeps its mirror although the store has none. *)
Theorem screens_share_key_through_store
    (v : string) (d : unit) (now later : Z) (w : World) :
  Text.trim v <> "" ->
  round_trips (key_entry (Text.trim v) now) ->
  later <= now + EncryptionKey.TTL_MS ->
  let wp := handleKeySubmit registered v (Api.Fulfilled d) now w in
  let wn := handleKeySubmitNotes registered v (Api.Fulfilled d) now w in
  (notes wp = notes w
   /\ EncryptionKey.encodedKey (NotesState.key (notes (NotesScreen.hydrateKey later wp)))
      = Some (encodeKey (Text.trim v)))
  /\ (passwords wn = passwords w
      /\ EncryptionKey.encodedKey
           (PasswordsState.key (passwords (PasswordsScreen.hydrateKey later wn)))
         = Some (encodeKey (Text.trim v)))
  /\ (notes (PasswordsScreen.clearKey wn) = notes wn
      /\ EncryptionKey.encodedKey (NotesState.key (notes (PasswordsScreen.clearKey wn)))
         = Some (encodeKey (Text.trim v))
      /\ storage (PasswordsScreen.clearKey wn) !! EncryptionKey.STORAGE_KEY = None).
Proof.
  intros Hv [Hne Hrt] Hlive wp wn.
  destruct session_keys_distinct as (_ & _ & _ & _ & _ & Hfk).
  assert (Hsp : storage wp !! EncryptionKey.STORAGE_KEY
                = Some (JSON_stringify (key_entry (Text.trim v) now))).
  { subst wp. rewrite handleKeySubmit_fulfilled by done.
    unfold setEncryptionKeyConfigured, PasswordsScreen.setKey, EncryptionKey.setKey.
    project. unfold setItem, setItemWithTTL, setItem, key_entry.
    rewrite lookup_insert_ne by done. apply lookup_insert_eq. }
  assert (Hsn : storage wn !! EncryptionKey.STORAGE_KEY
                = Some (JSON_stringify (key_entry (Text.trim v) now))).
  { subst wn. rewrite handleKeySubmitNotes_fulfilled by done.
    unfold setEncryptionKeyConfigured, NotesScreen.setKey, EncryptionKey.setKey.
    project. unfold setItem, setItemWithTTL, setItem, key_entry.
    rewrite lookup_insert_ne by done. apply lookup_insert_eq. }
  assert (Hfresh : expired (expiresAt (key_entry (Text.trim v) now)) later = false)
    by (by apply expired_false_le).
  split_conj.
  - subst wp. by rewrite handleKeySubmit_fulfilled.
  - unfold NotesScreen.hydrateKey, EncryptionKey.hydrate.
    rewrite (getItemWithTTL_parsed _ _ _ _ _ Hsp Hne Hrt), Hfresh. by project.
  - subst wn. by rewrite handleKeySubmitNotes_fulfilled.
  - unfold PasswordsScreen.hydrateKey, EncryptionKey.hydrate.
    rewrite (getItemWithTTL_parsed _ _ _ _ _ Hsn Hne Hrt), Hfresh. by project.
  - done.
  - subst wn. by rewrite handleKeySubmitNotes_fulfilled.
  - unfold PasswordsScreen.clearKey, EncryptionKey.clearKey. project.
    apply lookup_delete_eq.
Qed.

End SharedKey.

(** ** The notes screen *)

Section NotesMore.
Import AsyncStorage Storage Crypto App AuthProvider NotesState NotesScreen NotesView.
Context `{!Json (StoredValue string)} `{!Base64}.

Lemma decryptNote_fulfilled (noteId content : string) (data : NoteData) (w : World) :
  truthy_string (EncryptionKey.encodedKey (key (notes w))) = true ->
  match data with Text s => decodeKey s | WithContent c => Ret c end = Ret content ->
  decryptNote registered noteId (Api.Fulfilled data) w
  = with_notes (setActiveContent (insert noteId content))
      (with_client
         (Api.issue {| Api.method := "POST"; Api.url := "/journal/" +:+ noteId |}) w).
Proof.
  intros Hkey Hdec. unfold decryptNote. rewrite Hkey. cbn [negb request].
  by rewrite Hdec.
Qed.

(** With a key cached, a decrypt sends its request whatever the answer. *)
Lemma decryptNote_sent (noteId : string) (reply : Api.Reply NoteData) (w : World) :
  truthy_string (EncryptionKey.encodedKey (key (notes w))) = true ->
  Api.sent (client (decryptNote registered noteId reply w))
  = Api.sent (client w)
    ++ [{| Api.method := "POST"; Api.url := "/journal/" +:+ noteId |}].
Proof.
  intros Hkey. unfold decryptNote. rewrite Hkey. cbn [negb].
  destruct reply as [data|e].
  - cbn [request].
    by destruct (match data with Text s => _ | WithContent c => _ end).
  - rewrite request_rejected.
    destruct (status_is 401 (Axios e)); [|done].
    unfold signOut. by project.
Qed.

(** What a decrypt leaves alone: the cached key, and the content cached
    for every other note. *)
Lemma decryptNote_frame (noteId : string) (reply : Api.Reply NoteData) (w : World) :
  let w' := decryptNote registered noteId reply w in
  key (notes w') = key (notes w)
  /\ storage w' !! EncryptionKey.STORAGE_KEY = storage w !! EncryptionKey.STORAGE_KEY
  /\ forall other, other <> noteId ->
       activeContent (notes w') !! other = activeContent (notes w) !! other.
Proof.
  unfold decryptNote. destruct (negb _); [done|].
  pose proof (request_keeps_cached_key
    {| Api.method := "POST"; Api.url := "/journal/" +:+ noteId |} reply w)
    as (_ & Hn & _ & Hs).
  destruct (request _ _ _ _) as [w1 [data|e]]; cbn [fst] in Hn, Hs; [|by rewrite Hn].
  destruct (match data with Text s => _ | WithContent c => _ end) as [content|e];
    [|by rewrite Hn].
  project. rewrite Hn. split_conj; try done.
  intros other Hother. by rewrite lookup_insert_ne.
Qed.

(** X19: without a cached key [decryptNote] only opens the PIN prompt
    and sends nothing.  With one, a string answer is cached decoded and
    an object answer is cached as it came; an answer that does not
    decode and a rejected request cache nothing.  In every case the
    content cached for other notes and the cached key stay as they
    were. *)
Theorem decryptNote_caches_content
    (noteId : string) (reply : Api.Reply NoteData) (w : World) :
  let w' := decryptNote registered noteId reply w in
  (truthy_string (EncryptionKey.encodedKey (key (notes w))) = false ->
   w' = with_notes (setPromptKey true) w)
  /\ (truthy_string (EncryptionKey.encodedKey (key (notes w))) = true ->
      activeContent (notes w') !! noteId
      = match reply with
        | Api.Fulfilled (WithContent c) => Some c
        | Api.Fulfilled (Text s) =>
            match decodeKey s with
            | Ret content => Some content
            | Throw _ => activeContent (notes w) !! noteId
            end
        | Api.Rejected _ => activeContent (notes w) !! noteId
        end)
  /\ key (notes w') = key (notes w)
  /\ (forall other, other <> noteId ->
        activeContent (notes w') !! other = activeContent (notes w) !! other).
Proof.
  intros w'. destruct (decryptNote_frame noteId reply w) as (Hk & _ & Hother).
  split_conj; try done.
  - intros Hkey. subst w'. unfold decryptNote. by rewrite Hkey.
  - intros Hkey. subst w'. destruct reply as [[s|c]|e].
    + destruct (decodeKey s) as [content|err] eqn:Hdec.
      * rewrite (decryptNote_fulfilled noteId content (Text s) w Hkey Hdec).
        project. apply lookup_insert_eq.
      * unfold decryptNote. rewrite Hkey. cbn [negb request]. by rewrite Hdec.
    + rewrite (decryptNote_fulfilled noteId c (WithContent c) w Hkey eq_refl).
      project. apply lookup_insert_eq.
    + unfold decryptNote. rewrite Hkey. cbn [negb]. rewrite request_rejected.
      destruct (request_keeps_cached_key (D:=NoteData)
        {| Api.method := "POST"; Api.url := "/journal/" +:+ noteId |}
        (Api.Rejected e) w) as (_ & Hn & _).
      rewrite request_rejected in Hn. cbn [fst] in Hn. by rewrite Hn.
Qed.

(** X20: a note is fetched when it is first expanded, and not again:
    collapsing it sends nothing, and expanding it once more shows the
    cached content without a request.  Content that decrypted to the
    empty string counts as not cached and is fetched on every expand. *)
Theorem toggleExpand_fetches_once
    (noteId content : string) (data : NoteData) (reply' : Api.Reply NoteData)
    (v : View) (w : World) :
  expandedId v <> Some noteId ->
  truthy_string (activeContent (notes w) !! noteId) = false ->
  truthy_string (EncryptionKey.encodedKey (key (notes w))) = true ->
  match data with Text s => decodeKey s | WithContent c => Ret c end = Ret content ->
  let r1 := toggleExpand registered noteId (Api.Fulfilled data) v w in
  let r2 := toggleExpand registered noteId reply' r1.1 r1.2 in
  let r3 := toggleExpand registered noteId reply' r2.1 r2.2 in
  expandedId r1.1 = Some noteId
  /\ activeContent (notes r1.2) !! noteId = Some content
  /\ Api.sent (client r1.2)
     = Api.sent (client w)
       ++ [{| Api.method := "POST"; Api.url := "/journal/" +:+ noteId |}]
  /\ r2 = ({| expandedId := None |}, r1.2)
  /\ expandedId r3.1 = Some noteId
  /\ (content <> "" -> r3.2 = r1.2)
  /\ (content = "" ->
      Api.sent (client r3.2)
      = Api.sent (client r1.2)
        ++ [{| Api.method := "POST"; Api.url := "/journal/" +:+ noteId |}]).
Proof.
  intros Hv Hmiss Hkey Hdec r1 r2 r3.
  assert (E1 : r1 = ({| expandedId := Some noteId |},
                     decryptNote registered noteId (Api.Fulfilled data) w)).
  { subst r1. unfold toggleExpand. rewrite decide_False by done. by rewrite Hmiss. }
  assert (E2 : r2 = ({| expandedId := None |}, r1.2)).
  { subst r2. rewrite E1. unfold toggleExpand. cbn [fst snd expandedId].
    by rewrite decide_True. }
  assert (Hc : activeContent (notes r1.2) !! noteId = Some content).
  { rewrite E1. cbn [snd]. rewrite (decryptNote_fulfilled _ _ _ _ Hkey Hdec).
    project. apply lookup_insert_eq. }
  assert (Hk1 : truthy_string (EncryptionKey.encodedKey (key (notes r1.2))) = true).
  { rewrite E1. cbn [snd].
    destruct (decryptNote_frame noteId (Api.Fulfilled data) w) as (-> & _).
    done. }
  assert (E3 : r3 = ({| expandedId := Some noteId |},
                     if truthy_string (Some content) then r1.2
                     else decryptNote registered noteId reply' r1.2)).
  { subst r3. rewrite E2. unfold toggleExpand. cbn [fst snd expandedId].
    rewrite decide_False by done. by rewrite Hc. }
  split_conj.
  - by rewrite E1.
  - done.
  - rewrite E1. cbn [snd]. by apply decryptNote_sent.
  - done.
  - by rewrite E3.
  - intros Hne. rewrite E3. cbn [snd truthy_string].
    by rewrite (nonempty_eqb _ Hne).
  - intros ->. rewrite E3. cbn [snd truthy_string]. 
    change (negb (String.eqb "" "")) with false. cbn iota.
    by apply decryptNote_sent.
Qed.

End NotesMore.

(** ** The account screen *)

Section AccountMore.
Import AsyncStorage Storage Crypto App AuthContext AuthProvider AccountScreen.
Context `{!Json AuthUser} `{!Json (StoredValue string)} `{!Base64}.

(** X21: [safeDecode] undoes [encodeKey] wherever the codec does; it
    answers the empty string for a missing or empty value, and the raw
    value when decoding throws. *)
Theorem safeDecode_inverts_encodeKey (v raw : string) (e : Error) :
  (decodeKey (encodeKey v) = Ret v -> (encodeKey v = "" -> v = "") ->
   safeDecode (Some (encodeKey v)) = v)
  /\ (decodeKey raw = Throw e -> safeDecode (Some raw) = raw)
  /\ safeDecode None = ""
  /\ safeDecode (Some "") = "".
Proof.
  split_conj; try done.
  - intros Hdec Hempty. unfold safeDecode.
    destruct (String.eqb_spec (encodeKey v) "") as [Heq|Hne].
    + symmetry. by apply Hempty.
    + by rewrite Hdec.
  - intros Hdec. unfold safeDecode.
    destruct (String.eqb_spec raw "") as [->|Hne]; [done|]. by rewrite Hdec.
Qed.

(** X22: deleting the account ends the session exactly when the request
    went through or was refused with a 401: token, user and flag are
    gone from memory, store and header.  Any other failure leaves
    session and store as they were and the dialog open.  In no case is
    the cached key removed from the store or from the screens. *)
Theorem handleDeleteAccount_ends_session
    (reply : Api.Reply unit) (a : State) (w : World) :
  let r := handleDeleteAccount registered reply a w in
  let ended :=
    match reply with
    | Api.Fulfilled _ => true
    | Api.Rejected e => status_is 401 (Axios e)
    end in
  (if ended
   then token (auth r.2) = None /\ user (auth r.2) = None
        /\ encryptionKeyConfigured (auth r.2) = false
        /\ Api.authorization (client r.2) = None
        /\ storage r.2 !! AUTH_TOKEN_KEY = None
        /\ storage r.2 !! AUTH_USER_KEY = None
        /\ storage r.2 !! AUTH_KEY_FLAG = None
   else auth r.2 = auth w /\ storage r.2 = storage w
        /\ Api.authorization (client r.2) = Api.authorization (client w))
  /\ r.1 = match reply with
           | Api.Fulfilled _ => {| deleteVisible := false |}
           | Api.Rejected _ => a
           end
  /\ storage r.2 !! EncryptionKey.STORAGE_KEY = storage w !! EncryptionKey.STORAGE_KEY
  /\ passwords r.2 = passwords w
  /\ notes r.2 = notes w.
Proof.
  intros r ended. subst r ended. unfold handleDeleteAccount.
  set (req := {| Api.method := "DELETE"; Api.url := "/user/delete" |}).
  destruct reply as [d|e].
  - cbn [request fst snd].
    destruct (signOut_frame (with_client (Api.issue req) w)) as (Hp & Hn & _ & Hs).
    split; [apply signOut_cleared|]. by split_conj.
  - rewrite request_rejected. cbn [fst snd].
    destruct (status_is 401 (Axios e)).
    + destruct (signOut_frame (with_client (Api.issue req) w)) as (Hp & Hn & _ & Hs).
      split; [apply signOut_cleared|]. by split_conj.
    + by split_conj.
Qed.

End AccountMore.

(** ** Examples on the reference platform *)

Section StoreExamples.
Import AsyncStorage Storage Crypto History Reference Scenarios.

Lemma set_then_get_within_ttl_witness :
  getItemWithTTL (T:=string) "k" 1007
    (setItemWithTTL "k" "MTIzNA==" (Some 1000) 7 scenario_store)
  = (Some "MTIzNA==", setItemWithTTL "k" "MTIzNA==" (Some 1000) 7 scenario_store).
Proof.
  apply (set_then_get_within_ttl "k" "MTIzNA==" (Some 1000) 7 1007 scenario_store).
  - apply entry_round_trips.
  - intros ttl [= <-]. right. lia.
Defined.

Lemma absent_stays_absent_witness :
  (getItemWithTTL (T:=string) "securevault:ekey" 0
     (getItemWithTTL (T:=string) "securevault:ekey" 300001 scenario_store).2).1
  = None.
Proof.
  apply (absent_stays_absent "securevault:ekey" 300001 0 scenario_store).
  vm_compute; reflexivity.
Defined.

Lemma ttl_operations_frame_witness :
  setItemWithTTL "other" "MTIzNA==" (Some 5) 0 scenario_store !! "securevault:ekey"
  = scenario_store !! "securevault:ekey"
  /\ (getItemWithTTL (T:=string) "other" 0 scenario_store).2 !! "securevault:ekey"
     = scenario_store !! "securevault:ekey"
  /\ Storage.removeItem "other" scenario_store !! "securevault:ekey"
     = scenario_store !! "securevault:ekey".
Proof.
  apply (proj1 (ttl_operations_frame "other" "securevault:ekey" "MTIzNA=="
                  (Some 5) 0 scenario_store)).
  discriminate.
Defined.

Lemma key_found_after_restart_within_ttl_witness :
  EncryptionKey.hydrate 300000 EncryptionKey.initial
    (EncryptionKey.setKey "1234" true 0 EncryptionKey.initial ∅).2
  = ({| EncryptionKey.rawKey := Some (encodeKey "1234");
        EncryptionKey.isHydrated := true |},
     (EncryptionKey.setKey "1234" true 0 EncryptionKey.initial ∅).2)
  /\ EncryptionKey.hydrate 300001 EncryptionKey.initial
       (EncryptionKey.setKey "1234" true 0 EncryptionKey.initial ∅).2
     = ({| EncryptionKey.rawKey := None; EncryptionKey.isHydrated := true |},
        delete EncryptionKey.STORAGE_KEY
          (EncryptionKey.setKey "1234" true 0 EncryptionKey.initial ∅).2).
Proof.
  assert (Hrt : round_trips (key_entry "1234" 0)) by apply entry_round_trips.
  split.
  - apply (proj1 (key_found_after_restart_within_ttl "1234" 0 300000
                    EncryptionKey.initial ∅ Hrt (Z.le_refl 0))).
    unfold EncryptionKey.TTL_MS. lia.
  - apply (proj1 (proj2 (key_found_after_restart_within_ttl "1234" 0 300001
                           EncryptionKey.initial ∅ Hrt (Z.le_refl 0)))).
    unfold EncryptionKey.TTL_MS. lia.
Defined.

Lemma decodedKey_after_setKey_witness :
  EncryptionKey.decodedKey
    (EncryptionKey.setKey "1234" false 0 EncryptionKey.initial ∅).1
  = Ret (Some "1234").
Proof.
  apply (proj1 (proj2 (decodedKey_after_setKey "1234" false 0
                         EncryptionKey.initial ∅))).
  - vm_compute; discriminate.
  - vm_compute; reflexivity.
Defined.

End StoreExamples.

Section SessionMoreExamples.
Import AsyncStorage Storage AuthContext App AuthProvider Lifecycle.
Import History Reference Scenarios.

Lemma login_survives_restart_witness :
  user (auth (hydrate (relaunch signed_in))) = Some alice
  /\ token (auth (hydrate (relaunch signed_in))) = Some "abc"
  /\ Api.authorization (client (hydrate (relaunch signed_in))) = Some "Bearer abc".
Proof.
  assert (Hrt : round_trips alice) by (split; by_eval).
  pose proof (login_survives_restart
                {| payload_token := "abc"; payload_user := alice;
                   payload_encryptionKeyConfigured := Some true |}
                App.initial Hrt) as (Hu & _ & _ & _ & Ht & _).
  destruct Ht as (Htoken & _ & Hheader); [discriminate|].
  split; [exact Hu|]. split; [exact Htoken | exact Hheader].
Defined.

Lemma refreshUser_failure_witness :
  (refreshUser registered (Api.Rejected unauthorized) signed_in).2
  = Throw (Axios unauthorized)
  /\ token (auth (refreshUser registered (Api.Rejected unauthorized) signed_in).1)
     = None.
Proof.
  assert (Hin : truthy_string (token (auth signed_in)) = true)
    by (vm_compute; reflexivity).
  pose proof (refreshUser_failure unauthorized signed_in Hin) as (Hthrown & _ & H401).
  destruct H401 as (Htoken & _); [reflexivity|].
  split; [exact Hthrown | exact Htoken].
Defined.

End SessionMoreExamples.

Section ScreenExamples.
Import AsyncStorage Storage Crypto App AuthProvider.
Import History Reference Scenarios.

Lemma handleKeySubmit_stores_verified_pin_witness :
  EncryptionKey.rawKey (PasswordsState.key (passwords
    (KeyPrompt.handleKeySubmit registered " 1234 " (Api.Fulfilled tt) 0 signed_in)))
  = Some (encodeKey (Text.trim " 1234 "))
  /\ PasswordsState.promptKey (passwords
       (KeyPrompt.handleKeySubmit registered " 1234 " (Api.Fulfilled tt) 0 signed_in))
     = false.
Proof.
  assert (Hv : Text.trim " 1234 " <> "") by (vm_compute; discriminate).
  pose proof (proj2 (proj2 (handleKeySubmit_stores_verified_pin
                              " 1234 " (Api.Fulfilled tt) 0 signed_in))
                tt Hv eq_refl) as (Hraw & _ & _ & _ & Hprompt & _).
  split; [exact Hraw | exact Hprompt].
Defined.

Lemma modal_submit_closes_prompt_witness :
  (KeyPrompt.handleSubmit registered (Api.Rejected unauthorized) 0
     {| KeyPrompt.key := " 1234 "; KeyPrompt.isSubmitting := false |} signed_in).1
  = {| KeyPrompt.key := ""; KeyPrompt.isSubmitting := false |}
  /\ PasswordsState.promptKey (passwords
       (KeyPrompt.handleSubmit registered (Api.Rejected unauthorized) 0
          {| KeyPrompt.key := " 1234 "; KeyPrompt.isSubmitting := false |}
          signed_in).2)
     = false.
Proof.
  assert (Hv : Text.trim " 1234 " <> "") by (vm_compute; discriminate).
  pose proof (proj2 (modal_submit_closes_prompt (Api.Rejected unauthorized) 0
                       {| KeyPrompt.key := " 1234 "; KeyPrompt.isSubmitting := false |}
                       signed_in) Hv) as (Hmodal & _ & Hprompt & _).
  split; [exact Hmodal | exact Hprompt].
Defined.

Lemma handleReveal_shows_then_hides_witness :
  revealed "r1"
    (PasswordsScreen.handleReveal registered "r1"
       (Api.Fulfilled (PasswordsScreen.Text "b3RoZXI=")) 100 unlocked)
  = Some "other"
  /\ revealed "r1"
       (PasswordsScreen.fire (Timers.next (timers unlocked))
          (PasswordsScreen.handleReveal registered "r1"
             (Api.Fulfilled (PasswordsScreen.Text "b3RoZXI=")) 100 unlocked))
     = None.
Proof.
  assert (Hkey : truthy_string
                   (EncryptionKey.encodedKey (PasswordsState.key (passwords unlocked)))
                 = true) by (vm_compute; reflexivity).
  assert (Hdec : decodeKey "b3RoZXI=" = Ret "other") by (vm_compute; reflexivity).
  pose proof (proj2 (handleReveal_shows_then_hides "r1" "other"
                       (PasswordsScreen.Text "b3RoZXI=") 100 unlocked) Hkey Hdec)
    as (Hshown & _ & _ & Hhidden & _).
  split; [exact Hshown | exact Hhidden].
Defined.

Lemma fire_hides_only_its_record_witness :
  PasswordsState.hideTimers (passwords
    (screen_run [KeyEvent (SetKey "1234" true 0);
                 HandleReveal "r1" (Api.Fulfilled (PasswordsScreen.Text "b3RoZXI=")) 100]
       App.initial)) !! "r1"
  = Some 1%positive
  /\ revealed "r1"
       (PasswordsScreen.fire 1
          (screen_run [KeyEvent (SetKey "1234" true 0);
                       HandleReveal "r1"
                         (Api.Fulfilled (PasswordsScreen.Text "b3RoZXI=")) 100]
             App.initial))
     = None.
Proof.
  assert (Hh : Timers.pending (timers
                 (screen_run [KeyEvent (SetKey "1234" true 0);
                              HandleReveal "r1"
                                (Api.Fulfilled (PasswordsScreen.Text "b3RoZXI=")) 100]
                    App.initial)) !! 1%positive
               = Some {| Timers.target := "r1"; Timers.due := 5100 |})
    by (vm_compute; reflexivity).
  pose proof (fire_hides_only_its_record _ _ _ Hh) as (Hslot & Hhidden & _).
  split; [exact Hslot | exact Hhidden].
Defined.

Lemma screens_share_key_through_store_witness :
  EncryptionKey.encodedKey (NotesState.key (notes
    (NotesScreen.hydrateKey 1000
       (KeyPrompt.handleKeySubmit registered " 1234 " (Api.Fulfilled tt) 0 signed_in))))
  = Some (encodeKey (Text.trim " 1234 ")).
Proof.
  assert (Hv : Text.trim " 1234 " <> "") by (vm_compute; discriminate).
  assert (Hrt : round_trips (key_entry (Text.trim " 1234 ") 0))
    by apply entry_round_trips.
  assert (Hlive : 1000 <= 0 + EncryptionKey.TTL_MS)
    by (unfold EncryptionKey.TTL_MS; lia).
  pose proof (screens_share_key_through_store " 1234 " tt 0 1000 signed_in
                Hv Hrt Hlive) as ((_ & Hfound) & _).
  exact Hfound.
Defined.

Lemma decryptNote_caches_content_witness :
  NotesState.activeContent (notes
    (NotesScreen.decryptNote registered "n1"
       (Api.Fulfilled (NotesScreen.WithContent "as it came")) unlocked)) !! "n1"
  = Some "as it came".
Proof.
  assert (Hkey : truthy_string
                   (EncryptionKey.encodedKey (NotesState.key (notes unlocked)))
                 = true) by (vm_compute; reflexivity).
  exact (proj1 (proj2 (decryptNote_caches_content "n1"
                         (Api.Fulfilled (NotesScreen.WithContent "as it came"))
                         unlocked)) Hkey).
Defined.

Lemma toggleExpand_fetches_once_witness :
  NotesState.activeContent (notes
    (NotesView.toggleExpand registered "n1"
       (Api.Fulfilled (NotesScreen.Text "b3RoZXI="))
       {| NotesView.expandedId := None |} unlocked).2) !! "n1"
  = Some "other"
  /\ NotesView.toggleExpand registered "n1" (Api.Rejected unauthorized)
       (NotesView.toggleExpand registered "n1"
          (Api.Fulfilled (NotesScreen.Text "b3RoZXI="))
          {| NotesView.expandedId := None |} unlocked).1
       (NotesView.toggleExpand registered "n1"
          (Api.Fulfilled (NotesScreen.Text "b3RoZXI="))
          {| NotesView.expandedId := None |} unlocked).2
     = ({| NotesView.expandedId := None |},
        (NotesView.toggleExpand registered "n1"
           (Api.Fulfilled (NotesScreen.Text "b3RoZXI="))
           {| NotesView.expandedId := None |} unlocked).2).
Proof.
  assert (Hv : NotesView.expandedId {| NotesView.expandedId := None |} <> Some "n1")
    by discriminate.
  assert (Hmiss : truthy_string (NotesState.activeContent (notes unlocked) !! "n1")
                  = false) by (vm_compute; reflexivity).
  assert (Hkey : truthy_string
                   (EncryptionKey.encodedKey (NotesState.key (notes unlocked)))
                 = true) by (vm_compute; reflexivity).
  assert (Hdec : decodeKey "b3RoZXI=" = Ret "other") by (vm_compute; reflexivity).
  pose proof (toggleExpand_fetches_once "n1" "other" (NotesScreen.Text "b3RoZXI=")
                (Api.Rejected unauthorized) {| NotesView.expandedId := None |}
                unlocked Hv Hmiss Hkey Hdec) as (_ & Hcached & _ & Hcollapsed & _).
  split; [exact Hcached | exact Hcollapsed].
Defined.

Lemma safeDecode_inverts_encodeKey_witness :
  AccountScreen.safeDecode (Some (encodeKey "1234")) = "1234".
Proof.
  apply (proj1 (safeDecode_inverts_encodeKey "1234" "" (Exception ""))).
  - vm_compute; reflexivity.
  - vm_compute; discriminate.
Defined.

End ScreenExamples.
